(** * EduHub backend: authentication endpoints, validation and store bootstrap

    A shallow embedding of [Backend/utils.py], [Backend/database.py] and the
    authentication endpoints of [Backend/main.py], with the properties of the
    design document stated over it. *)

From stdpp Require Import gmap strings list fin_maps.
From Stdlib Require Import ZArith NArith Lia Ascii.
From Stdlib Require DecimalString.

Open Scope Z_scope.

(** ** Python values *)

(** A Python [str] is a sequence of Unicode code points; [len] counts code
    points, so the model keeps them as numbers rather than as bytes. *)
Definition char := N.
Abbreviation pystr := (list char).

(** The code point of an ASCII character of a source literal. *)
Definition chr (a : Ascii.ascii) : char := Ascii.N_of_ascii a.
Arguments chr a%_char.

(** A source literal made of ASCII characters only. *)
Fixpoint lit (s : string) : pystr :=
  match s with
  | EmptyString => []
  | String a s' => chr a :: lit s'
  end.

Definition newline : char := 10%N.

(** ** utils.py *)

Module Re.

(** The fragment of Python's [re] syntax that the pattern of
    [validate_email] is written in. *)

(** One member of a bracketed set: a range [a-z] or a single character. *)
Inductive set_item :=
| Range (lo hi : char)
| Single (c : char).

Definition in_item (it : set_item) (c : char) : bool :=
  match it with
  | Range lo hi => (lo <=? c)%N && (c <=? hi)%N
  | Single x => (c =? x)%N
  end.

Definition in_set (cs : list set_item) (c : char) : bool :=
  existsb (fun it => in_item it c) cs.

Inductive item :=
| Bol                                  (* ^ *)
| Eol                                  (* $ *)
| Chr (c : char)                       (* a literal character, also \. *)
| Plus (cs : list set_item)            (* [...]+ *)
| AtLeast (n : nat) (cs : list set_item). (* [...]{n,} *)

(** [$] without [re.MULTILINE]: the end of the string, or just before a
    newline that is the last character of the string. *)
Definition at_end (s : pystr) : bool :=
  match s with
  | [] => true
  | [c] => (c =? newline)%N
  | _ => false
  end.

(** Backtracking over a repeated set: consume one more member, or hand the
    rest to the continuation.  The flag tells whether the position is still
    the start of the string. *)
Fixpoint rep (cs : list set_item) (k : bool -> pystr -> bool)
    (b : bool) (s : pystr) : bool :=
  match s with
  | c :: s' => (in_set cs c && rep cs k false s') || k b s
  | [] => k b []
  end.

Fixpoint exactly (n : nat) (cs : list set_item) (k : bool -> pystr -> bool)
    (b : bool) (s : pystr) : bool :=
  match n with
  | O => k b s
  | S n' =>
      match s with
      | c :: s' => in_set cs c && exactly n' cs k false s'
      | [] => false
      end
  end.

(** Does the pattern match a prefix of [s]?  [b] holds when [s] is the
    whole subject string. *)
Fixpoint match_here (p : list item) (b : bool) (s : pystr) : bool :=
  match p with
  | [] => true
  | Bol :: p' => b && match_here p' b s
  | Eol :: p' => at_end s && match_here p' b s
  | Chr c :: p' =>
      match s with
      | x :: s' => (x =? c)%N && match_here p' false s'
      | [] => false
      end
  | Plus cs :: p' => exactly 1 cs (rep cs (match_here p')) b s
  | AtLeast n cs :: p' => exactly n cs (rep cs (match_here p')) b s
  end.

(** [re.match(pattern, s) is not None] *)
Definition matches (p : list item) (s : pystr) : bool := match_here p true s.

End Re.

(** The bracketed sets of the email pattern. *)
Definition local_set : list Re.set_item :=
  [Re.Range (chr "a") (chr "z"); Re.Range (chr "A") (chr "Z");
   Re.Range (chr "0") (chr "9"); Re.Single (chr "."); Re.Single (chr "_");
   Re.Single (chr "%"); Re.Single (chr "+"); Re.Single (chr "-")].

Definition domain_set : list Re.set_item :=
  [Re.Range (chr "a") (chr "z"); Re.Range (chr "A") (chr "Z");
   Re.Range (chr "0") (chr "9"); Re.Single (chr "."); Re.Single (chr "-")].

Definition alpha_set : list Re.set_item :=
  [Re.Range (chr "a") (chr "z"); Re.Range (chr "A") (chr "Z")].

(** [r'^[a-zA-Z0-9._%+-]+@[a-zA-Z0-9.-]+\.[a-zA-Z]{2,}$'] *)
Definition pattern : list Re.item :=
  [Re.Bol; Re.Plus local_set; Re.Chr (chr "@"); Re.Plus domain_set;
   Re.Chr (chr "."); Re.AtLeast 2 alpha_set; Re.Eol].

Definition validate_email (email : pystr) : bool := Re.matches pattern email.

Definition password_too_short : pystr :=
  lit "Password must be at least 6 characters long".

(** Returns [(is_valid, error_message)]. *)
Definition validate_password (password : pystr) : bool * option pystr :=
  if (Z.of_nat (length password) <? 6)
  then (false, Some password_too_short)
  else (true, None).


(** ** Documents and exceptions *)

(** The values that the fields of a document hold in this program. *)
Inductive value :=
| VStr (s : pystr)
| VDatetime (t : Z)
| VObjectId (n : N)
| VNone.

Global Instance value_eq_dec : EqDecision value.
Proof. solve_decision. Defined.

(** A Python [dict] with [str] keys, and a document of the store. *)
Abbreviation doc := (gmap string value).

(** Truthiness of an optional dict: [None] and the empty dict are falsy. *)
Definition truthy (d : option doc) : bool :=
  match d with
  | Some m => negb (bool_decide (m = ∅))
  | None => false
  end.

(** The exceptions that reach the endpoints: subclasses of [Exception], and
    [asyncio.CancelledError], which cancels a task at an await and is a
    [BaseException] but no [Exception]. *)
Inductive exn :=
| HTTPException (status_code : Z) (detail : option pystr)
    (headers : list (pystr * pystr))
| DuplicateKeyError (msg : pystr)
| PyMongoError (msg : pystr)
| KeyError (key : string)
| AttributeError (msg : pystr)
| ResponseValidationError (msg : pystr)
| CancelledError.

(** [isinstance(e, Exception)] *)
Definition is_exception (e : exn) : bool :=
  match e with
  | CancelledError => false
  | _ => true
  end.

Global Instance exn_eq_dec : EqDecision exn.
Proof. solve_decision. Defined.

Definition HTTP_400_BAD_REQUEST : Z := 400.
Definition HTTP_401_UNAUTHORIZED : Z := 401.

(** [str(e)], as the f-string of [init_db] renders an exception. *)
Definition str_exn (e : exn) : pystr :=
  match e with
  | HTTPException c d _ =>
      lit (DecimalString.NilZero.string_of_int (Z.to_int c)) ++ lit ": " ++
      default (lit "None") d
  | DuplicateKeyError m | PyMongoError m | AttributeError m
  | ResponseValidationError m => m
  | KeyError k => lit "'" ++ lit k ++ lit "'"
  | CancelledError => []
  end.

(** ** Effects *)

Inductive outcome (X : Type) : Type :=
| Returned (x : X)
| Raised (e : exn).
Arguments Returned {X} x.
Arguments Raised {X} e.

Global Instance outcome_eq_dec {X : Type} `{EqDecision X}
  : EqDecision (outcome X).
Proof. solve_decision. Defined.

Inductive collection := Users | Subjects | Materials.

(** The filters that the program passes to the store. *)
#[warnings="-register-all"]
Inductive query :=
| QAll                                   (* {} *)
| QEq (field : string) (v : value)       (* {field: v} *)
| QOr (qs : list query).                 (* {"$or": [...]} *)

(** The operations of the store driver that the program awaits. *)
Inductive storeE : Type -> Type :=
| FindOne (c : collection) (q : query) : storeE (option doc)
| InsertOne (c : collection) (d : doc) : storeE N
| InsertMany (c : collection) (ds : list doc) : storeE unit
| CreateIndex (c : collection) (field : string) (unique : bool) : storeE unit
| CountDocuments (c : collection) (q : query) : storeE nat.

(** A coroutine: it returns, raises, awaits a store operation (and is resumed
    with its result or with the exception the driver raised), reads the
    clock, or prints a line. *)
Inductive prog (A : Type) : Type :=
| Ret (a : A)
| Raise (e : exn)
| Await {X : Type} (op : storeE X) (k : outcome X -> prog A)
| UtcNow (k : Z -> prog A)
| Print (line : pystr) (k : prog A).
Arguments Ret {A} a.
Arguments Raise {A} e.
Arguments Await {A X} op k.
Arguments UtcNow {A} k.
Arguments Print {A} line k.

Fixpoint bind {A B : Type} (p : prog A) (f : A -> prog B) : prog B :=
  match p with
  | Ret a => f a
  | Raise e => Raise e
  | Await op k => Await op (fun r => bind (k r) f)
  | UtcNow k => UtcNow (fun t => bind (k t) f)
  | Print l k => Print l (bind k f)
  end.

Global Instance prog_ret : MRet prog := fun A a => Ret a.
Global Instance prog_bind : MBind prog := fun A B f p => bind p f.

(** [try: p  except Exception as e: h e]; what is no [Exception] passes
    through. *)
Fixpoint try_except {A : Type} (p : prog A) (h : exn -> prog A) : prog A :=
  match p with
  | Ret a => Ret a
  | Raise e => if is_exception e then h e else Raise e
  | Await op k => Await op (fun r => try_except (k r) h)
  | UtcNow k => UtcNow (fun t => try_except (k t) h)
  | Print l k => Print l (try_except k h)
  end.

(** [await op]: the driver's exception is raised at the await. *)
Definition await {X : Type} (op : storeE X) : prog X :=
  Await op (fun r => match r with Returned x => Ret x | Raised e => Raise e end).

Definition utcnow : prog Z := UtcNow Ret.
Definition print (line : pystr) : prog unit := Print line (Ret tt).

(** [d[k]] *)
Definition getitem (d : doc) (k : string) : prog value :=
  match d !! k with
  | Some v => Ret v
  | None => Raise (KeyError k)
  end.

Section Run.
(** The store behind the driver: any state and any behaviour. *)
Context {S : Type} (handle : forall X, storeE X -> S -> outcome X * S).

Record world := World { store : S; clock : Z; stdout : list pystr }.

Definition with_store (w : world) (s : S) : world :=
  {| store := s; clock := clock w; stdout := stdout w |}.

(** One coroutine run to completion, nothing else touching the store. *)
Fixpoint run {A : Type} (p : prog A) (w : world) : outcome A * world :=
  match p with
  | Ret a => (Returned a, w)
  | Raise e => (Raised e, w)
  | Await op k =>
      let '(r, s) := handle _ op (store w) in run (k r) (with_store w s)
  | UtcNow k => run (k (clock w)) w
  | Print l k =>
      run k {| store := store w; clock := clock w; stdout := stdout w ++ [l] |}
  end.

(** A coroutine run up to and including its next await; the event loop
    may then resume another one. *)
Fixpoint advance {A : Type} (p : prog A) (w : world) : prog A * world :=
  match p with
  | Ret a => (Ret a, w)
  | Raise e => (Raise e, w)
  | Await op k =>
      let '(r, s) := handle _ op (store w) in (k r, with_store w s)
  | UtcNow k => advance (k (clock w)) w
  | Print l k =>
      advance k {| store := store w; clock := clock w; stdout := stdout w ++ [l] |}
  end.

(** Two requests in flight: the schedule names, step by step, which of
    them the event loop resumes ([true] for the first); what is left
    when the schedule ends runs to completion, first then second. *)
Fixpoint interleave {A B : Type} (sched : list bool) (p : prog A)
    (q : prog B) (w : world) : prog A * prog B * world :=
  match sched with
  | [] => (p, q, w)
  | true :: sched' =>
      let '(p', w') := advance p w in interleave sched' p' q w'
  | false :: sched' =>
      let '(q', w') := advance q w in interleave sched' p q' w'
  end.

Definition concurrently {A B : Type} (sched : list bool) (p : prog A)
    (q : prog B) (w : world) : outcome A * outcome B * world :=
  let '(p', q', w1) := interleave sched p q w in
  let '(rp, w2) := run p' w1 in
  let '(rq, w3) := run q' w2 in
  (rp, rq, w3).
End Run.

Definition returned {A : Type} (o : outcome A) : bool :=
  match o with
  | Returned _ => true
  | Raised _ => false
  end.

Arguments world S : clear implicits.
Arguments World {S} store clock stdout.

Global Instance world_eq_dec {S : Type} `{EqDecision S}
  : EqDecision (world S).
Proof. solve_decision. Defined.

(** ** The document store *)

(** An in-memory MongoDB: per collection the documents in insertion order
    and the indexes created so far ([(field, unique)]).  [InsertOne] answers
    with the [ObjectId] the driver generated; the program never supplies an
    [_id] of its own. *)
Module Mongo.

Record coll := Coll { docs : list doc; indexes : list (string * bool) }.

Global Instance coll_eq_dec : EqDecision coll.
Proof. solve_decision. Defined.

Record db := Db {
  users : coll;
  subjects : coll;
  materials : coll;
  next_id : N
}.

Global Instance db_eq_dec : EqDecision db.
Proof. solve_decision. Defined.

Definition get_coll (c : collection) (d : db) : coll :=
  match c with
  | Users => users d
  | Subjects => subjects d
  | Materials => materials d
  end.

Definition set_coll (c : collection) (x : coll) (d : db) : db :=
  match c with
  | Users => Db x (subjects d) (materials d) (next_id d)
  | Subjects => Db (users d) x (materials d) (next_id d)
  | Materials => Db (users d) (subjects d) x (next_id d)
  end.

Fixpoint q_matches (q : query) (d : doc) : bool :=
  match q with
  | QAll => true
  | QEq f v => bool_decide (d !! f = Some v)
  | QOr qs => existsb (fun q' => q_matches q' d) qs
  end.

(** The key a document has in an index: a missing field counts as null. *)
Definition index_key (f : string) (d : doc) : value := default VNone (d !! f).

Definition unique_fields (ixs : list (string * bool)) : list string :=
  "_id"%string :: map fst (filter (fun ix => snd ix = true) ixs).

(** Would storing [d] break a unique index of the collection? *)
Definition violates (x : coll) (d : doc) : bool :=
  existsb
    (fun f => existsb (fun e => bool_decide (index_key f e = index_key f d))
                (docs x))
    (unique_fields (indexes x)).

Definition duplicate_key : pystr := lit "E11000 duplicate key error".
Definition index_conflict : pystr := lit "index options conflict".

Definition insert_one (c : collection) (d : doc) (s : db) : outcome N * db :=
  let x := get_coll c s in
  let n := next_id s in
  let d' := <["_id"%string := VObjectId n]> d in
  let s' := Db (users s) (subjects s) (materials s) (n + 1)%N in
  if violates x d' then (Raised (DuplicateKeyError duplicate_key), s')
  else (Returned n, set_coll c (Coll (docs x ++ [d']) (indexes x)) s').

(** Ordered bulk insert: stops at the first failure, keeping what went in. *)
Fixpoint insert_many (c : collection) (ds : list doc) (s : db)
    : outcome unit * db :=
  match ds with
  | [] => (Returned tt, s)
  | d :: ds' =>
      match insert_one c d s with
      | (Returned _, s') => insert_many c ds' s'
      | (Raised e, s') => (Raised e, s')
      end
  end.

Definition create_index (c : collection) (f : string) (unique : bool)
    (s : db) : outcome unit * db :=
  let x := get_coll c s in
  match list_find (fun ix => fst ix = f) (indexes x) with
  | Some (_, (_, u)) =>
      if bool_decide (u = unique) then (Returned tt, s)
      else (Raised (PyMongoError index_conflict), s)
  | None =>
      if unique && negb (bool_decide (NoDup (map (index_key f) (docs x))))
      then (Raised (DuplicateKeyError duplicate_key), s)
      else (Returned tt, set_coll c (Coll (docs x) (indexes x ++ [(f, unique)])) s)
  end.

Definition handle (X : Type) (op : storeE X) (s : db) : outcome X * db :=
  match op in storeE X return outcome X * db with
  | FindOne c q => (Returned (List.find (q_matches q) (docs (get_coll c s))), s)
  | InsertOne c d => insert_one c d s
  | InsertMany c ds => insert_many c ds s
  | CreateIndex c f u => create_index c f u s
  | CountDocuments c q =>
      (Returned (length (List.filter (q_matches q) (docs (get_coll c s)))), s)
  end.

Definition empty_coll : coll := Coll [] [].
Definition empty : db := Db empty_coll empty_coll empty_coll 0.

End Mongo.

(** ** database.py *)

Definition subject (name code description : string) (icon : pystr) : doc :=
  <["name"%string := VStr (lit name)]>
    (<["code"%string := VStr (lit code)]>
       (<["description"%string := VStr (lit description)]>
          (<["icon"%string := VStr icon]> ∅))).

Definition default_subjects : list doc :=
  [subject "Internet of Things" "IOT" "IOT" [0x1F310%N];
   subject "IOT Lab" "IOT_LAB" "Practical Sessions" [0x1F527%N];
   subject "Pervasive Computing" "PC" "PC" [0x2601%N; 0xFE0F%N];
   subject "PC Lab" "PC_LAB" "Hands-on Practice" [0x2699%N; 0xFE0F%N];
   subject "Big Data Analytics" "BDA" "BDA" [0x1F4CA%N];
   subject "Cryptography & Network Security" "CNS" "CNS" [0x1F510%N];
   subject "Internet & Mobile Tech" "INTM" "INTM" [0x1F9E0%N]].

Definition subjects_added : pystr :=
  0x2705%N :: lit " Default subjects added to MongoDB".
Definition initialized : pystr :=
  0x2705%N :: lit " MongoDB initialized successfully".
Definition init_error (e : exn) : pystr :=
  0x274C%N :: lit " Error initializing MongoDB: " ++ str_exn e.

(** The suite of the [try] statement of [init_db]. *)
Definition init_db_body : prog unit :=
  await (CreateIndex Users "email" true);;
  await (CreateIndex Users "username" true);;
  await (CreateIndex Subjects "code" true);;
  await (CreateIndex Materials "subject_id" false);;
  await (CreateIndex Materials "uploaded_by" false);;
  existing_subjects ← await (CountDocuments Subjects QAll);
  (if (existing_subjects =? 0)%nat
   then await (InsertMany Subjects default_subjects);;
        print subjects_added
   else Ret tt);;
  print initialized.

(** Initialize database and create indexes. *)
Definition init_db : prog unit :=
  try_except init_db_body (fun e => print (init_error e)).

(** ** main.py *)

(** What [main.py] imports from [auth]. *)
Class Auth := {
  get_password_hash : pystr -> pystr;
  authenticate_user : pystr -> pystr -> prog (option doc);
  create_access_token : doc -> Z -> prog pystr;
  ACCESS_TOKEN_EXPIRE_MINUTES : Z
}.

(** What the endpoints use of the Python library. *)
Class Pylib := {
  isoformat : Z -> pystr     (* datetime.isoformat *)
}.

(** [timedelta(minutes=m)], in seconds. *)
Definition timedelta_minutes (m : Z) : Z := 60 * m.

(** [str(ObjectId)]: 24 lowercase hexadecimal digits. *)
Definition hex_digit (n : N) : char :=
  if (n <? 10)%N then (48 + n)%N else (87 + n)%N.

Fixpoint hex_digits (width : nat) (n : N) (acc : pystr) : pystr :=
  match width with
  | O => acc
  | S w => hex_digits w (n / 16)%N (hex_digit (n mod 16)%N :: acc)
  end.

Definition str_ObjectId (n : N) : pystr := hex_digits 24 n [].

Module UserSignup.
Record t := Make { email : pystr; username : pystr; password : pystr }.
End UserSignup.

Module UserLogin.
Record t := Make { email : pystr; password : pystr }.
End UserLogin.

Module UserResponse.
Record t := Make {
  id : pystr;
  email : pystr;
  username : pystr;
  created_at : pystr
}.

Global Instance user_response_eq_dec : EqDecision t.
Proof. solve_decision. Defined.

(** The JSON object of the response: the declared fields and no other. *)
Definition dump (u : t) : doc :=
  <["id"%string := VStr (id u)]>
    (<["email"%string := VStr (email u)]>
       (<["username"%string := VStr (username u)]>
          (<["created_at"%string := VStr (created_at u)]> ∅))).
End UserResponse.

Module TokenResponse.
Record t := Make {
  access_token : pystr;
  token_type : pystr;
  user : UserResponse.t
}.

Global Instance token_response_eq_dec : EqDecision t.
Proof. solve_decision. Defined.
End TokenResponse.

(** A [str] field of a response model refuses any other value. *)
Definition str_field (name : string) (v : value) : prog pystr :=
  match v with
  | VStr s => Ret s
  | _ => Raise (ResponseValidationError (lit name))
  end.

(** [v.isoformat()] *)
Definition isoformat_of `{Pylib} (v : value) : prog pystr :=
  match v with
  | VDatetime t => Ret (isoformat t)
  | _ => Raise (AttributeError (lit "isoformat"))
  end.

(** [UserResponse(id=d["_id"], email=d["email"], username=d["username"],
    created_at=d["created_at"].isoformat())] *)
Definition user_response `{Pylib} (d : doc) : prog UserResponse.t :=
  id ← getitem d "_id";
  email ← getitem d "email";
  username ← getitem d "username";
  created ← getitem d "created_at";
  created_at ← isoformat_of created;
  id ← str_field "id" id;
  email ← str_field "email" email;
  username ← str_field "username" username;
  Ret (UserResponse.Make id email username created_at).

Definition invalid_email_format : pystr := lit "Invalid email format".
Definition already_registered : pystr :=
  lit "Email or username already registered".
Definition incorrect_email_or_password : pystr :=
  lit "Incorrect email or password".
Definition bearer : pystr := lit "bearer".

(** The tail that [signup] and [login] share word for word: the access
    token for the user's email, then the response models. *)
Definition token_response `{Auth} `{Pylib} (user : doc)
    : prog TokenResponse.t :=
  sub ← getitem user "email";
  access_token ←
    create_access_token (<["sub"%string := sub]> ∅)
      (timedelta_minutes ACCESS_TOKEN_EXPIRE_MINUTES);
  user_response ← user_response user;
  Ret (TokenResponse.Make access_token bearer user_response).

(** The document that [signup] stores. *)
Definition new_user (user_data : UserSignup.t) (hashed_password : pystr)
    (now : Z) : doc :=
  <["email"%string := VStr (UserSignup.email user_data)]>
    (<["username"%string := VStr (UserSignup.username user_data)]>
       (<["hashed_password"%string := VStr hashed_password]>
          (<["created_at"%string := VDatetime now]> ∅))).

(** The filter of the existence check of [signup]. *)
Definition existing_filter (user_data : UserSignup.t) : query :=
  QOr [QEq "email" (VStr (UserSignup.email user_data));
       QEq "username" (VStr (UserSignup.username user_data))].

(** Register a new user.  [user_data] has passed the request model. *)
Definition signup `{Auth} `{Pylib} (user_data : UserSignup.t)
    : prog TokenResponse.t :=
  if negb (validate_email (UserSignup.email user_data)) then
    Raise (HTTPException HTTP_400_BAD_REQUEST (Some invalid_email_format) [])
  else
  let '(is_valid, error_msg) := validate_password (UserSignup.password user_data) in
  if negb is_valid then
    Raise (HTTPException HTTP_400_BAD_REQUEST error_msg [])
  else
  existing_user ← await (FindOne Users (existing_filter user_data));
  if truthy existing_user then
    Raise (HTTPException HTTP_400_BAD_REQUEST (Some already_registered) [])
  else
  let hashed_password := get_password_hash (UserSignup.password user_data) in
  now ← utcnow;
  let new_user := new_user user_data hashed_password now in
  inserted_id ← await (InsertOne Users new_user);
  let new_user := <["_id"%string := VStr (str_ObjectId inserted_id)]> new_user in
  token_response new_user.

(** Login user and return JWT token. *)
Definition login `{Auth} `{Pylib} (user_data : UserLogin.t)
    : prog TokenResponse.t :=
  user ← authenticate_user (UserLogin.email user_data)
           (UserLogin.password user_data);
  if negb (truthy user) then
    Raise (HTTPException HTTP_401_UNAUTHORIZED
             (Some incorrect_email_or_password)
             [(lit "WWW-Authenticate", lit "Bearer")])
  else token_response (default ∅ user).

(** Get current authenticated user information; [current_user] is what the
    [get_current_user] dependency resolved. *)
Definition get_current_user_info `{Pylib} (current_user : doc)
    : prog UserResponse.t :=
  user_response current_user.

Definition api_running : pystr :=
  0x1F680%N :: lit " EduHub API is running with MongoDB!".

Definition startup_event : prog unit :=
  init_db;; print api_running.

(** What the framework sends for the outcome of an endpoint: the model as
    JSON, the status and detail of an [HTTPException], a bare 500 for any
    other [Exception], and nothing when the task of the request is
    cancelled. *)
Inductive body :=
| JDetail (detail : option pystr)
| JToken (r : TokenResponse.t)
| JUser (r : UserResponse.t)
| Text (s : pystr).

Global Instance body_eq_dec : EqDecision body.
Proof. solve_decision. Defined.

Record response := Response {
  status : Z;
  headers : list (pystr * pystr);
  content : body
}.

Global Instance response_eq_dec : EqDecision response.
Proof. solve_decision. Defined.

Definition internal_server_error : response :=
  Response 500 [] (Text (lit "Internal Server Error")).

Definition http_response {A : Type} (to_body : A -> body) (o : outcome A)
    : option response :=
  match o with
  | Returned a => Some (Response 200 [] (to_body a))
  | Raised (HTTPException c d h) => Some (Response c h (JDetail d))
  | Raised CancelledError => None
  | Raised _ => Some internal_server_error
  end.

(** ** auth.py

    The module is imported by [main.py] and its text is not part of the
    sources at hand; the design document describes it as a Credential Hasher
    and a Token Service. *)

Module TokenService.

Inductive AuthError :=
| MissingCredential
| Malformed
| BadSignature
| Expired
| UnknownSubject
| InvalidCredentials.

(** The claims of a token: the subject and the absolute expiry. *)
Record claims := Claims { subject : pystr; expiry : Z }.

Global Instance AuthError_eq_dec : EqDecision AuthError.
Proof. solve_decision. Defined.

Global Instance claims_eq_dec : EqDecision claims.
Proof. solve_decision. Defined.

(** The keyed signature and the token encoding. *)
Class Codec := {
  sign : pystr -> claims -> pystr;
  encode : claims -> pystr -> pystr;
  decode : pystr -> option (claims * pystr)
}.

Section WithSecret.
Context `{Codec} (SECRET_KEY : pystr).

(** Modelled from the spec: [issue(claims: {subject}, ttl) -> token], the
    signed, encoded token embedding subject and an absolute expiry =
    now + ttl; [auth.py] is not among the sources. *)
Definition issue (now : Z) (sub : pystr) (ttl : Z) : pystr :=
  let c := Claims sub (now + ttl) in
  encode c (sign SECRET_KEY c).

(** Modelled from the spec: [verify(token) -> Result<claims, AuthError>]
    fails with [Malformed] if the token cannot be decoded, with
    [BadSignature] if the signature does not match, with [Expired] if
    the expiry has passed; a token is valid if and only if its signature
    verifies and its expiry is in the future, and a token of ttl 0 is
    expired at once.  [auth.py] is not among the sources. *)
Definition verify (now : Z) (token : pystr) : AuthError + claims :=
  match decode token with
  | None => inl Malformed
  | Some (c, sg) =>
      if negb (bool_decide (sg = sign SECRET_KEY c)) then inl BadSignature
      else if negb (now <? expiry c) then inl Expired
      else inr c
  end.

(** The validity of the data model, in the spec's words: the signature
    verifies against the service's secret and the expiry is in the
    future. *)
Definition signature_verifies (token : pystr) : Prop :=
  exists c sg, decode token = Some (c, sg) /\ sg = sign SECRET_KEY c.

Definition expiry_in_future (now : Z) (token : pystr) : Prop :=
  exists c sg, decode token = Some (c, sg) /\ now < expiry c.
End WithSecret.

End TokenService.

(** The Credential Hasher. *)
Class Hasher := {
  hash : pystr -> pystr;
  verify_password : pystr -> pystr -> bool
}.

Module AuthPy.
Section WithConfig.
Context `{Hasher} `{TokenService.Codec}.
Context (SECRET_KEY : pystr) (EXPIRE_MINUTES : Z).

(** Modelled from the spec: login looks the user up by email and
    verifies the password with the Credential Hasher; an absent user and
    a mismatch are not told apart.  The function of [auth.py] is not
    among the sources; [login] tests its result with [not user].  The
    identifier is handed on as a string, as [UserResponse] needs it. *)
Definition authenticate_user (email password : pystr)
    : prog (option doc) :=
  user ← await (FindOne Users (QEq "email" (VStr email)));
  match user with
  | None => Ret None
  | Some u =>
      hashed ← getitem u "hashed_password";
      match hashed with
      | VStr h =>
          if verify_password password h then
            Ret (Some (match u !! "_id"%string with
                       | Some (VObjectId n) =>
                           <["_id"%string := VStr (str_ObjectId n)]> u
                       | _ => u
                       end))
          else Ret None
      | _ => Ret None
      end
  end.

(** Modelled from the spec: the token is issued for the subject of
    [data] with expiry = now + [expires_delta]. *)
Definition create_access_token (data : doc) (expires_delta : Z)
    : prog pystr :=
  sub ← getitem data "sub";
  sub ← str_field "sub" sub;
  now ← utcnow;
  Ret (TokenService.issue SECRET_KEY now sub expires_delta).

Definition auth : Auth :=
  Build_Auth hash authenticate_user create_access_token EXPIRE_MINUTES.
End WithConfig.
End AuthPy.

(** ** The wording of the design document *)

(** The email contract as the document words it: an ASCII local part, [@],
    and a domain whose last dot-separated label has length at least 2. *)
Fixpoint split_on (sep : char) (s : pystr) : list pystr :=
  match s with
  | [] => [[]]
  | c :: s' =>
      if (c =? sep)%N then [] :: split_on sep s'
      else match split_on sep s' with
           | w :: ws => (c :: w) :: ws
           | [] => [[c]]
           end
  end.

Definition is_ascii (c : char) : bool := (c <? 128)%N.

Definition spec_email_form (s : pystr) : bool :=
  match split_on (chr "@") s with
  | [local; domain] =>
      negb (bool_decide (local = [])) && forallb is_ascii local &&
      (let labels := split_on (chr ".") domain in
       (2 <=? length labels)%nat && (2 <=? length (List.last labels []))%nat)
  | _ => false
  end.

(** What the pattern of [validate_email] spells out: a non-empty local part
    over [a-zA-Z0-9._%+-], [@], a non-empty domain over [a-zA-Z0-9.-], a dot
    and at least two letters. *)
Definition address (local domain tld : pystr) : pystr :=
  local ++ chr "@" :: domain ++ chr "." :: tld.

Definition pattern_form (s : pystr) : Prop :=
  exists local domain tld,
    s = address local domain tld /\
    local <> [] /\ forallb (Re.in_set local_set) local = true /\
    domain <> [] /\ forallb (Re.in_set domain_set) domain = true /\
    (2 <= length tld)%nat /\ forallb (Re.in_set alpha_set) tld = true.

(** The public user view: the projection of a user document onto the
    identifier, the email, the username and the creation time. *)
Definition public_view `{Pylib} (d : doc) : option UserResponse.t :=
  match d !! "_id"%string, d !! "email"%string, d !! "username"%string,
        d !! "created_at"%string with
  | Some (VStr i), Some (VStr e), Some (VStr n), Some (VDatetime t) =>
      Some (UserResponse.Make i e n (isoformat t))
  | _, _, _, _ => None
  end.

(** The data that the endpoints hand to [create_access_token]. *)
Definition token_data (email : pystr) : doc :=
  <["sub"%string := VStr email]> ∅.

(** The exceptions that the taxonomy of the document names. *)
Definition conflict_error : exn :=
  HTTPException HTTP_400_BAD_REQUEST (Some already_registered) [].

Definition validation_error (reason : pystr) : exn :=
  HTTPException HTTP_400_BAD_REQUEST (Some reason) [].

Definition invalid_credentials : exn :=
  HTTPException HTTP_401_UNAUTHORIZED (Some incorrect_email_or_password)
    [(lit "WWW-Authenticate", lit "Bearer")].

(** What building a [UserResponse] from a document raises: a missing key, a
    creation time that is no datetime, a field that is no string. *)
Definition response_errors : list exn :=
  [KeyError "_id"; KeyError "email"; KeyError "username";
   KeyError "created_at"; AttributeError (lit "isoformat");
   ResponseValidationError (lit "id"); ResponseValidationError (lit "email");
   ResponseValidationError (lit "username")].

(** ** Concrete instances, for running the model *)

Module Toy.

Definition pylib : Pylib := {| isoformat := fun t => [Z.to_N t] |}.

Definition hasher : Hasher := {|
  hash := fun p => chr "#" :: p;
  verify_password := fun p h => bool_decide (h = chr "#" :: p)
|}.

Definition z_code (z : Z) : pystr :=
  [if (z <? 0) then 1%N else 0%N; Z.abs_N z].

Definition codec : TokenService.Codec := {|
  TokenService.sign := fun key c =>
    key ++ z_code (TokenService.expiry c) ++ TokenService.subject c;
  TokenService.encode := fun c sg =>
    z_code (TokenService.expiry c) ++
    N.of_nat (length (TokenService.subject c)) ::
    TokenService.subject c ++ sg;
  TokenService.decode := fun t =>
    match t with
    | neg :: a :: n :: rest =>
        if (N.to_nat n <=? length rest)%nat then
          Some (TokenService.Claims (take (N.to_nat n) rest)
                  (if (neg =? 0)%N then Z.of_N a else - Z.of_N a),
                drop (N.to_nat n) rest)
        else None
    | _ => None
    end
|}.

Definition secret : pystr := lit "s3cret".

Definition auth : Auth :=
  @AuthPy.auth hasher codec secret 30.

Definition alice : UserSignup.t :=
  UserSignup.Make (lit "a@x.com") (lit "alice") (lit "secret1").

(** The same email under another username. *)
Definition alice2 : UserSignup.t :=
  UserSignup.Make (lit "a@x.com") (lit "alice2") (lit "secret2").

(** The world after a start on an empty store. *)
Definition fresh : world Mongo.db :=
  snd (run Mongo.handle startup_event (World Mongo.empty 1000 [])).

(** The world after alice signed up. *)
Definition with_alice : world Mongo.db :=
  snd (run Mongo.handle (@signup auth pylib alice) fresh).

(** Her document in the store; the seven subjects took the identifiers
    before hers. *)
Definition alice_doc : doc :=
  <["_id"%string := VObjectId 7]>
    (new_user alice (@get_password_hash auth (UserSignup.password alice))
       1000).

(** What her signup returned. *)
Definition alice_response : TokenResponse.t :=
  TokenResponse.Make
    (@TokenService.issue codec secret 1000 (UserSignup.email alice)
       (timedelta_minutes 30))
    bearer
    (UserResponse.Make (str_ObjectId 7) (UserSignup.email alice)
       (UserSignup.username alice) (@isoformat pylib 1000)).



End Toy.

(** ** utils.py: the response envelope *)

(** The values of the envelope that [format_response] builds. *)
Inductive rvalue :=
| RBool (b : bool)
| RStr (s : pystr)
| RDict (d : doc).

Global Instance rvalue_eq_dec : EqDecision rvalue.
Proof. solve_decision. Defined.

(** Format API response. *)
Definition format_response `{Pylib} (success : bool) (message : pystr)
    (data : option doc) : prog (gmap string rvalue) :=
  now ← utcnow;
  let response : gmap string rvalue :=
    <["success"%string := RBool success]>
      (<["message"%string := RStr message]>
         (<["timestamp"%string := RStr (isoformat now)]> ∅)) in
  if truthy data
  then Ret (<["data"%string := RDict (default ∅ data)]> response)
  else Ret response.

Definition health_data : doc :=
  <["status"%string := VStr (lit "running")]>
    (<["database"%string := VStr (lit "MongoDB")]> ∅).

Definition health_check `{Pylib} : prog (gmap string rvalue) :=
  format_response true (lit "EduHub API is healthy") (Some health_data).

(** ** main.py: subjects and materials *)

(** What the subject and material endpoints use of the libraries:
    [ObjectId.is_valid], [ObjectId(s)] for a valid [s], and [str] of a
    [datetime]. *)
Class Bson := {
  ObjectId_is_valid : pystr -> bool;
  ObjectId : pystr -> N;
  str_datetime : Z -> pystr
}.

(** [str(v)] *)
Definition py_str `{Bson} (v : value) : pystr :=
  match v with
  | VStr s => s
  | VDatetime t => str_datetime t
  | VObjectId n => str_ObjectId n
  | VNone => lit "None"
  end.

Definition HTTP_404_NOT_FOUND : Z := 404.

Module SubjectResponse.
Record t := Make {
  id : pystr;
  name : pystr;
  code : pystr;
  description : option pystr;
  icon : pystr
}.

Global Instance subject_response_eq_dec : EqDecision t.
Proof. solve_decision. Defined.
End SubjectResponse.

Module MaterialCreate.
Record t := Make {
  subject_id : pystr;
  title : pystr;
  content : option pystr;
  file_url : option pystr
}.
End MaterialCreate.

Module MaterialResponse.
Record t := Make {
  id : pystr;
  subject_id : pystr;
  title : pystr;
  content : option pystr;
  file_url : option pystr;
  uploaded_by : pystr;
  created_at : pystr
}.

Global Instance material_response_eq_dec : EqDecision t.
Proof. solve_decision. Defined.
End MaterialResponse.

(** An [Optional[str]] field of a response model: [None], as [dict.get]
    gives it for a missing key or the store for a null, or a string. *)
Definition opt_str_field (name : string) (v : option value)
    : prog (option pystr) :=
  match v with
  | None | Some VNone => Ret None
  | Some (VStr s) => Ret (Some s)
  | Some _ => Raise (ResponseValidationError (lit name))
  end.

(** An [Optional[str]] of a request model as a value of a document. *)
Definition of_optional (o : option pystr) : value :=
  match o with
  | Some s => VStr s
  | None => VNone
  end.

(** The icon that [subject.get("icon", ...)] falls back on. *)
Definition books : pystr := [0x1F4DA%N].

Definition invalid_subject_id : pystr := lit "Invalid subject ID".
Definition subject_not_found : pystr := lit "Subject not found".

(** [SubjectResponse(id=str(subject["_id"]), name=subject["name"],
    code=subject["code"], description=subject.get("description"),
    icon=subject.get("icon", books))] *)
Definition subject_response `{Bson} (subject : doc)
    : prog SubjectResponse.t :=
  id ← getitem subject "_id";
  name ← getitem subject "name";
  code ← getitem subject "code";
  let description := subject !! "description"%string in
  let icon := default (VStr books) (subject !! "icon"%string) in
  name ← str_field "name" name;
  code ← str_field "code" code;
  description ← opt_str_field "description" description;
  icon ← str_field "icon" icon;
  Ret (SubjectResponse.Make (py_str id) name code description icon).

(** Get a specific subject by ID. *)
Definition get_subject `{Bson} (subject_id : pystr)
    : prog SubjectResponse.t :=
  if negb (ObjectId_is_valid subject_id) then
    Raise (HTTPException HTTP_400_BAD_REQUEST (Some invalid_subject_id) [])
  else
  subject ←
    await (FindOne Subjects (QEq "_id" (VObjectId (ObjectId subject_id))));
  if negb (truthy subject) then
    Raise (HTTPException HTTP_404_NOT_FOUND (Some subject_not_found) [])
  else subject_response (default ∅ subject).

(** The document that [create_material] stores. *)
Definition new_material (material_data : MaterialCreate.t)
    (uploaded_by : value) (now : Z) : doc :=
  <["subject_id"%string := VStr (MaterialCreate.subject_id material_data)]>
    (<["title"%string := VStr (MaterialCreate.title material_data)]>
       (<["content"%string := of_optional (MaterialCreate.content material_data)]>
          (<["file_url"%string := of_optional (MaterialCreate.file_url material_data)]>
             (<["uploaded_by"%string := uploaded_by]>
                (<["created_at"%string := VDatetime now]> ∅))))).

(** [MaterialResponse(id=m["_id"], subject_id=m["subject_id"],
    title=m["title"], content=m.get("content"), file_url=m.get("file_url"),
    uploaded_by=m["uploaded_by"], created_at=m["created_at"].isoformat())] *)
Definition material_response `{Pylib} (m : doc) : prog MaterialResponse.t :=
  id ← getitem m "_id";
  subject_id ← getitem m "subject_id";
  title ← getitem m "title";
  let content := m !! "content"%string in
  let file_url := m !! "file_url"%string in
  uploaded_by ← getitem m "uploaded_by";
  created ← getitem m "created_at";
  created_at ← isoformat_of created;
  id ← str_field "id" id;
  subject_id ← str_field "subject_id" subject_id;
  title ← str_field "title" title;
  content ← opt_str_field "content" content;
  file_url ← opt_str_field "file_url" file_url;
  uploaded_by ← str_field "uploaded_by" uploaded_by;
  Ret (MaterialResponse.Make id subject_id title content file_url
         uploaded_by created_at).

(** Create a new study material (requires authentication); [current_user]
    is what the [get_current_user] dependency resolved. *)
Definition create_material `{Pylib} `{Bson}
    (material_data : MaterialCreate.t) (current_user : doc)
    : prog MaterialResponse.t :=
  subject ←
    (if ObjectId_is_valid (MaterialCreate.subject_id material_data)
     then await (FindOne Subjects
                   (QEq "_id"
                      (VObjectId
                         (ObjectId (MaterialCreate.subject_id material_data)))))
     else Ret None);
  if negb (truthy subject) then
    Raise (HTTPException HTTP_404_NOT_FOUND (Some subject_not_found) [])
  else
  uploaded_by ← getitem current_user "_id";
  now ← utcnow;
  let new_material := new_material material_data uploaded_by now in
  inserted_id ← await (InsertOne Materials new_material);
  let new_material :=
    <["_id"%string := VStr (str_ObjectId inserted_id)]> new_material in
  material_response new_material.

(** ** Notions for the properties of the store *)

Global Instance collection_eq_dec : EqDecision collection.
Proof. solve_decision. Defined.

(** The document that a signup adds to the user collection. *)
Definition stored_user `{Auth} (u : UserSignup.t) (w : world Mongo.db) : doc :=
  <["_id"%string := VObjectId (Mongo.next_id (store w))]>
    (new_user u (get_password_hash (UserSignup.password u)) (clock w)).

(** [signup] from its existence check on, resumed with what the lookup
    found. *)
Definition signup_resumed `{Auth} `{Pylib} (u : UserSignup.t)
    (existing_user : option doc) : prog TokenResponse.t :=
  if truthy existing_user then
    Raise (HTTPException HTTP_400_BAD_REQUEST (Some already_registered) [])
  else
  let hashed_password := get_password_hash (UserSignup.password u) in
  now ← utcnow;
  let new_user := new_user u hashed_password now in
  inserted_id ← await (InsertOne Users new_user);
  let new_user := <["_id"%string := VStr (str_ObjectId inserted_id)]> new_user in
  token_response new_user.

(** The identifiers that a bulk insert gives out, from [n] on. *)
Definition with_ids (n : N) (ds : list doc) : list doc :=
  imap (fun i d => <["_id"%string := VObjectId (n + N.of_nat i)]> d) ds.

(** The collection [c] has an index on [f] with uniqueness [u]. *)
Definition has_index (c : collection) (f : string) (u : bool)
    (s : Mongo.db) : Prop :=
  exists i f',
    list_find (fun ix : string * bool => fst ix = f)
      (Mongo.indexes (Mongo.get_coll c s)) = Some (i, (f', u)).

(** The subject lookup of [create_material], against the store. *)
Definition subject_of `{Bson} (m : MaterialCreate.t) (w : world Mongo.db)
    : option doc :=
  if ObjectId_is_valid (MaterialCreate.subject_id m) then
    List.find
      (Mongo.q_matches
         (QEq "_id" (VObjectId (ObjectId (MaterialCreate.subject_id m)))))
      (Mongo.docs (Mongo.subjects (store w)))
  else None.

(** ** More concrete data, for running the subject and material endpoints *)

Module Fixtures.

(** [bytes.fromhex]: pairs of hexadecimal digits of either case, ASCII
    white space skipped between the pairs; the bytes are kept as the number
    they write. *)
Definition hex_value (c : char) : option N :=
  if ((48 <=? c) && (c <=? 57))%N then Some (c - 48)%N
  else if ((97 <=? c) && (c <=? 102))%N then Some (c - 87)%N
  else if ((65 <=? c) && (c <=? 70))%N then Some (c - 55)%N
  else None.

Definition is_space (c : char) : bool :=
  ((9 <=? c) && (c <=? 13) || (c =? 32))%N.

Fixpoint parse_hex (s : pystr) (acc : N) : option N :=
  match s with
  | [] => Some acc
  | c :: s' =>
      if is_space c then parse_hex s' acc
      else
        match hex_value c, s' with
        | Some d, c' :: s'' =>
            match hex_value c' with
            | Some d' => parse_hex s'' (256 * acc + 16 * d + d')%N
            | None => None
            end
        | _, _ => None
        end
  end.

(** [ObjectId.is_valid] of a string: 24 characters that [bytes.fromhex]
    reads. *)
Definition bson : Bson := {|
  ObjectId_is_valid := fun s =>
    (length s =? 24)%nat && bool_decide (is_Some (parse_hex s 0%N));
  ObjectId := fun s => default 0%N (parse_hex s 0%N);
  str_datetime := fun t => [Z.to_N t]
|}.


(** The first seeded subject, as the store holds it after a start. *)
Definition iot : doc :=
  <["_id"%string := VObjectId 0]>
    (subject "Internet of Things" "IOT" "IOT" [0x1F310%N]).

Definition notes : MaterialCreate.t :=
  MaterialCreate.Make (str_ObjectId 0) (lit "Notes") (Some (lit "text")) None.

(** A resolved user, the identifier already a string. *)
Definition current_alice : doc :=
  <["_id"%string := VStr (str_ObjectId 7)]> Toy.alice_doc.

(** An [auth] whose token creation fails. *)
Definition no_token : Auth :=
  Build_Auth (@get_password_hash Toy.auth) (@authenticate_user Toy.auth)
    (fun _ _ => Raise (AttributeError (lit "encode"))) 30.

(** The world after the suite of [init_db] ran on an empty store. *)
Definition seeded : world Mongo.db :=
  snd (run Mongo.handle init_db_body (World Mongo.empty 1000 [])).

End Fixtures.

(** * Properties *)

(** A decidable fact about concrete data, by evaluation. *)
Ltac by_vm := cbv zeta; apply (bool_decide_unpack _); vm_compute; exact I.

Lemma with_alice_users :
  Mongo.docs (Mongo.users (store Toy.with_alice)) = [Toy.alice_doc].
Proof. by_vm. Qed.

(** ** The email pattern on examples *)

Example validate_email_1 : validate_email (lit "a@x.com") = true.
Proof. reflexivity. Qed.
Example validate_email_2 : validate_email (lit "a@x.c") = false.
Proof. reflexivity. Qed.
Example validate_email_3 : validate_email (lit "a.b-c@x.y.co1.uk") = true.
Proof. reflexivity. Qed.
Example validate_email_4 : validate_email (lit "a@x.com" ++ [newline]) = true.
Proof. reflexivity. Qed.
Example validate_email_5 : validate_email (lit "a@x.com" ++ [newline; newline]) = false.
Proof. reflexivity. Qed.
Example validate_email_6 : validate_email (lit "a!b@x.com") = false.
Proof. reflexivity. Qed.
Example validate_email_7 : validate_email (lit "@x.com") = false.
Proof. reflexivity. Qed.

(** ** The pattern matcher *)

Section ReLemmas.
Variable cs : list Re.set_item.
Variable k : bool -> pystr -> bool.

Lemma rep_true b s :
  Re.rep cs k b s = true <->
  exists l r, s = l ++ r /\ forallb (Re.in_set cs) l = true /\
              k (b && bool_decide (l = [])) r = true.
Proof.
  revert b. induction s as [|c s' IH]; intros b; simpl.
  - split.
    + intros Hk. exists [], []. by rewrite andb_true_r.
    + intros (l & r & Heq & _ & Hk).
      symmetry in Heq. apply app_eq_nil in Heq as [-> ->].
      by rewrite andb_true_r in Hk.
  - rewrite orb_true_iff, andb_true_iff, IH. split.
    + intros [[Hc (l & r & -> & Hl & Hk)] | Hk].
      * exists (c :: l), r. simpl. rewrite Hc, Hl, andb_false_r.
        by rewrite andb_false_l in Hk.
      * exists [], (c :: s'). by rewrite andb_true_r.
    + intros (l & r & Heq & Hl & Hk). destruct l as [|x l].
      * right. simpl in Heq. subst r. by rewrite andb_true_r in Hk.
      * left. simpl in Heq. injection Heq as -> ->.
        simpl in Hl. apply andb_true_iff in Hl as [Hc Hl].
        split; [done|]. exists l, r. rewrite andb_false_r in Hk.
        by rewrite andb_false_l.
Qed.

Lemma exactly_true n b s :
  Re.exactly n cs k b s = true <->
  exists l r, s = l ++ r /\ length l = n /\
              forallb (Re.in_set cs) l = true /\
              k (b && bool_decide (l = [])) r = true.
Proof.
  revert b s. induction n as [|n IH]; intros b s; simpl.
  - split.
    + intros Hk. exists [], s. by rewrite andb_true_r.
    + intros (l & r & -> & Hn & _ & Hk).
      apply nil_length_inv in Hn as ->. by rewrite andb_true_r in Hk.
  - destruct s as [|c s'].
    + split; [done|]. intros (l & r & Heq & Hn & _).
      symmetry in Heq. apply app_eq_nil in Heq as [-> _]. done.
    + rewrite andb_true_iff, IH. split.
      * intros [Hc (l & r & -> & Hn & Hl & Hk)].
        exists (c :: l), r. simpl. rewrite Hc, Hl, Hn, andb_false_r.
        by rewrite andb_false_l in Hk.
      * intros (l & r & Heq & Hn & Hl & Hk). destruct l as [|x l]; [done|].
        simpl in Heq, Hn, Hl. injection Heq as -> ->.
        apply andb_true_iff in Hl as [Hc Hl].
        split; [done|]. exists l, r. rewrite andb_false_r in Hk.
        rewrite andb_false_l. by injection Hn as ->.
Qed.
End ReLemmas.

Lemma forallb_app_true {A} (f : A -> bool) (l1 l2 : list A) :
  forallb f l1 = true -> forallb f l2 = true -> forallb f (l1 ++ l2) = true.
Proof. intros H1 H2. rewrite forallb_app, H1, H2. done. Qed.

Lemma match_here_chr c p b s :
  Re.match_here (Re.Chr c :: p) b s =
  match s with
  | x :: s' => (x =? c)%N && Re.match_here p false s'
  | [] => false
  end.
Proof. reflexivity. Qed.

Lemma match_here_plus cs p b s :
  Re.match_here (Re.Plus cs :: p) b s =
  Re.exactly 1 cs (Re.rep cs (Re.match_here p)) b s.
Proof. reflexivity. Qed.

Lemma match_here_at_least n cs p b s :
  Re.match_here (Re.AtLeast n cs :: p) b s =
  Re.exactly n cs (Re.rep cs (Re.match_here p)) b s.
Proof. reflexivity. Qed.

Lemma match_here_eol b s : Re.match_here [Re.Eol] b s = Re.at_end s.
Proof. unfold Re.match_here. apply andb_true_r. Qed.

Lemma at_end_true s : Re.at_end s = true <-> s = [] \/ s = [newline].
Proof.
  destruct s as [|c [|c' s]]; simpl.
  - split; auto.
  - rewrite N.eqb_eq. split; [intros ->; auto | intros [|[=]]; done].
  - split; [done | intros [|]; done].
Qed.

(** A set repeated at least [n] times, then [p]. *)
Lemma at_least_true n cs p b s :
  Re.exactly n cs (Re.rep cs (Re.match_here p)) b s = true <->
  exists l r, s = l ++ r /\ (n <= length l)%nat /\
              forallb (Re.in_set cs) l = true /\
              Re.match_here p (b && bool_decide (l = [])) r = true.
Proof.
  rewrite exactly_true. split.
  - intros (l1 & r1 & -> & Hn & Hl1 & H).
    apply rep_true in H as (l2 & r2 & -> & Hl2 & H).
    exists (l1 ++ l2), r2. rewrite <- app_assoc, length_app, forallb_app, Hl1, Hl2.
    split_and!; [done | lia | done |].
    destruct l1, l2; simpl in *; rewrite ?andb_true_r, ?andb_false_r in *; done.
  - intros (l & r & -> & Hn & Hl & H).
    exists (take n l), (drop n l ++ r).
    rewrite app_assoc, take_drop, length_take.
    rewrite <- (take_drop n l), forallb_app in Hl.
    apply andb_true_iff in Hl as [Hl1 Hl2].
    split_and!; [done | lia | done |].
    apply rep_true. exists (drop n l), r. split_and!; [done..|].
    destruct n, l; simpl in *; rewrite ?andb_true_r, ?andb_false_r in *;
      try done; lia.
Qed.

(** [validate_email] accepts the strings of the pattern's form, and those
    followed by one newline, and no other. *)
Lemma validate_email_true s :
  validate_email s = true <->
  exists t, pattern_form t /\ (s = t \/ s = t ++ [newline]).
Proof.
  unfold validate_email, Re.matches, pattern.
  change (Re.match_here (Re.Bol :: ?p) true s) with (Re.match_here p true s).
  rewrite match_here_plus, at_least_true.
  split.
  - intros (local & r & -> & Hn1 & Hl1 & H).
    rewrite match_here_chr in H. destruct r as [|x r]; [done|].
    apply andb_true_iff in H as [Hat H]. apply N.eqb_eq in Hat as ->.
    rewrite match_here_plus in H.
    apply at_least_true in H as (domain & r' & -> & Hn2 & Hl2 & H).
    rewrite match_here_chr in H. destruct r' as [|x r']; [done|].
    apply andb_true_iff in H as [Hdot H]. apply N.eqb_eq in Hdot as ->.
    rewrite match_here_at_least in H.
    apply at_least_true in H as (tld & tail & -> & Hn3 & Hl3 & H).
    rewrite match_here_eol in H. apply at_end_true in H.
    exists (address local domain tld). split.
    + exists local, domain, tld. split_and!; try done.
      * intros ->. simpl in Hn1. lia.
      * intros ->. simpl in Hn2. lia.
    + unfold address. destruct H as [-> | ->]; [left | right].
      * by rewrite app_nil_r.
      * rewrite <- !app_assoc. simpl. rewrite <- !app_assoc. done.
  - intros (t & (local & domain & tld & -> & Hn1 & Hl1 & Hn2 & Hl2 & Hn3 & Hl3) & Hs).
    exists local, (chr "@" :: domain ++ chr "." :: tld ++
                   if bool_decide (s = address local domain tld) then [] else [newline]).
    split_and!.
    + unfold address in *. case_bool_decide as Hd.
      * rewrite app_nil_r. done.
      * destruct Hs as [-> | ->]; [done|].
        rewrite <- !app_assoc. simpl. rewrite <- !app_assoc. done.
    + destruct local; [done | simpl; lia].
    + done.
    + rewrite match_here_chr, N.eqb_refl, match_here_plus, andb_true_l.
      apply at_least_true. eexists domain, _. split_and!; [done | | done |].
      * destruct domain; [done | simpl; lia].
      * rewrite match_here_chr, N.eqb_refl, match_here_at_least, andb_true_l.
        apply at_least_true. eexists tld, _. split_and!; [done..|].
        rewrite match_here_eol. apply at_end_true.
        case_bool_decide; auto.
Qed.

Lemma pattern_form_last t : pattern_form t -> last t <> Some newline.
Proof.
  intros (local & domain & tld & -> & _ & _ & _ & _ & Hn & Hl).
  unfold address.
  destruct tld as [|c tld _] using rev_ind; [simpl in Hn; lia|].
  rewrite forallb_app in Hl. apply andb_true_iff in Hl as [_ Hl].
  replace (local ++ chr "@" :: domain ++ chr "." :: tld ++ [c])
    with ((local ++ chr "@" :: domain ++ chr "." :: tld) ++ [c])
    by (rewrite <- !app_assoc; simpl; rewrite <- !app_assoc; done).
  rewrite last_snoc. intros [= ->]. vm_compute in Hl. done.
Qed.

(** ** Running coroutines *)

Section RunLemmas.
Context {S : Type} (handle : forall X, storeE X -> S -> outcome X * S).

Lemma run_bind {A B} (p : prog A) (f : A -> prog B) (w : world S) :
  run handle (p ≫= f) w =
  match run handle p w with
  | (Returned a, w') => run handle (f a) w'
  | (Raised e, w') => (Raised e, w')
  end.
Proof.
  unfold mbind, prog_bind. revert w.
  induction p as [a|e|X op k IH|k IH|l k IH]; intros w; simpl; try done.
  destruct (handle X op (store w)) as [r s]. apply IH.
Qed.

Lemma run_await {X} (op : storeE X) (w : world S) :
  run handle (await op) w =
  (fst (handle X op (store w)), with_store w (snd (handle X op (store w)))).
Proof.
  unfold await. simpl. destruct (handle X op (store w)) as [[x|e] s]; done.
Qed.

Lemma run_utcnow (w : world S) :
  run handle utcnow w = (Returned (clock w), w).
Proof. done. Qed.

Lemma run_print (l : pystr) (w : world S) :
  run handle (print l) w =
  (Returned tt, World (store w) (clock w) (stdout w ++ [l])).
Proof. done. Qed.

Lemma with_store_id (w : world S) : with_store w (store w) = w.
Proof. by destruct w. Qed.

(** A coroutine resumed step by step ends as it does run in one go. *)
Lemma run_advance {A} (p : prog A) (w : world S) :
  run handle (fst (advance handle p w)) (snd (advance handle p w)) =
  run handle p w.
Proof.
  revert w. induction p as [a|e|X op k IH|k IH|l k IH]; intros w; simpl;
    try done.
  destruct (handle X op (store w)) as [r s]. done.
Qed.

Context `{Auth} `{Pylib}.

Lemma signup_invalid_email (u : UserSignup.t) (w : world S) :
  validate_email (UserSignup.email u) = false ->
  run handle (signup u) w =
  (Raised (validation_error invalid_email_format), w).
Proof. intros He. unfold signup. rewrite He. done. Qed.

Lemma validate_password_short (p : pystr) :
  (length p < 6)%nat -> validate_password p = (false, Some password_too_short).
Proof.
  intros Hp. unfold validate_password.
  destruct (Z.ltb_spec (Z.of_nat (length p)) 6); [done | lia].
Qed.

Lemma validate_password_long (p : pystr) :
  (6 <= length p)%nat -> validate_password p = (true, None).
Proof.
  intros Hp. unfold validate_password.
  destruct (Z.ltb_spec (Z.of_nat (length p)) 6); [lia | done].
Qed.

Lemma signup_short_password (u : UserSignup.t) (w : world S) :
  validate_email (UserSignup.email u) = true ->
  (length (UserSignup.password u) < 6)%nat ->
  run handle (signup u) w =
  (Raised (validation_error password_too_short), w).
Proof.
  intros He Hp. unfold signup.
  rewrite He, (validate_password_short _ Hp). done.
Qed.

(** Past its two checks, [signup] looks for an existing user, inserts the
    new one and builds the response. *)
Lemma signup_valid (u : UserSignup.t) (w : world S) :
  validate_email (UserSignup.email u) = true ->
  (6 <= length (UserSignup.password u))%nat ->
  run handle (signup u) w =
  match handle _ (FindOne Users (existing_filter u)) (store w) with
  | (Raised e, s1) => (Raised e, with_store w s1)
  | (Returned existing_user, s1) =>
      if truthy existing_user then (Raised conflict_error, with_store w s1)
      else
        let d := new_user u (get_password_hash (UserSignup.password u))
                   (clock w) in
        match handle _ (InsertOne Users d) s1 with
        | (Raised e, s2) => (Raised e, with_store w s2)
        | (Returned n, s2) =>
            run handle
              (token_response (<["_id"%string := VStr (str_ObjectId n)]> d))
              (with_store w s2)
        end
  end.
Proof.
  intros He Hp. unfold signup.
  rewrite He, (validate_password_long _ Hp). simpl negb. cbv iota.
  rewrite run_bind, run_await.
  destruct (handle _ (FindOne Users (existing_filter u)) (store w))
    as [[ex|e] s1]; simpl fst; simpl snd; cbv iota; [|done].
  destruct (truthy ex); [done|].
  rewrite run_bind, run_utcnow. cbv beta iota.
  rewrite run_bind, run_await.
  change (clock (with_store w s1)) with (clock w).
  change (store (with_store w s1)) with s1.
  destruct (handle _ (InsertOne Users _) s1) as [[n|e] s2]; done.
Qed.
End RunLemmas.

Section Responses.
Context {S : Type} (handle : forall X, storeE X -> S -> outcome X * S).
Context `{Auth} `{Pylib}.

Lemma run_getitem (d : doc) (k : string) (w : world S) :
  run handle (getitem d k) w =
  (match d !! k with Some v => Returned v | None => Raised (KeyError k) end, w).
Proof. unfold getitem. by destruct (d !! k). Qed.

(** The response model holds the public view of the document it is built
    from, and building it touches nothing. *)
Lemma user_response_returned (d : doc) (w w' : world S) r :
  run handle (user_response d) w = (Returned r, w') ->
  public_view d = Some r /\ w' = w.
Proof.
  unfold user_response, public_view.
  rewrite !run_bind, !run_getitem.
  destruct (d !! "_id"%string) as [i|]; [|done].
  cbv beta iota. rewrite !run_bind, !run_getitem.
  destruct (d !! "email"%string) as [e|]; [|done].
  cbv beta iota. rewrite !run_bind, !run_getitem.
  destruct (d !! "username"%string) as [n|]; [|done].
  cbv beta iota. rewrite !run_bind, !run_getitem.
  destruct (d !! "created_at"%string) as [c|]; [|done].
  cbv beta iota.
  destruct c, i, e, n; simpl; intros [= <- <-]; done.
Qed.

Lemma token_response_returned (d : doc) (w w' : world S) r :
  run handle (token_response d) w = (Returned r, w') ->
  public_view d = Some (TokenResponse.user r) /\
  TokenResponse.token_type r = bearer /\
  run handle
    (create_access_token (token_data (UserResponse.email (TokenResponse.user r)))
       (timedelta_minutes ACCESS_TOKEN_EXPIRE_MINUTES)) w =
  (Returned (TokenResponse.access_token r), w').
Proof.
  unfold token_response.
  rewrite run_bind, run_getitem.
  destruct (d !! "email"%string) as [e|] eqn:He; [|done].
  cbv beta iota. rewrite run_bind.
  destruct (run handle (create_access_token _ _) w) as [[tok|?] w1] eqn:Htok;
    [|done].
  rewrite run_bind.
  destruct (run handle (user_response d) w1) as [[ur|?] w2] eqn:Hur; [|done].
  apply user_response_returned in Hur as [Hv ->].
  simpl. intros [= <- <-]. split_and!; [done..|]. simpl.
  unfold public_view in Hv. rewrite He in Hv.
  repeat case_match; try done. injection Hv as <-. done.
Qed.

Lemma user_response_raised (d : doc) (w w' : world S) e :
  run handle (user_response d) w = (Raised e, w') ->
  e ∈ response_errors /\ w' = w.
Proof.
  unfold user_response.
  rewrite !run_bind, !run_getitem.
  destruct (d !! "_id"%string) as [i|]; cbv beta iota;
    [|intros [= <- <-]; split; [by_vm|done]].
  rewrite !run_bind, !run_getitem.
  destruct (d !! "email"%string) as [m|]; cbv beta iota;
    [|intros [= <- <-]; split; [by_vm|done]].
  rewrite !run_bind, !run_getitem.
  destruct (d !! "username"%string) as [n|]; cbv beta iota;
    [|intros [= <- <-]; split; [by_vm|done]].
  rewrite !run_bind, !run_getitem.
  destruct (d !! "created_at"%string) as [c|]; cbv beta iota;
    [|intros [= <- <-]; split; [by_vm|done]].
  destruct c, i, m, n; simpl; intros [= <- <-]; (split; [by_vm|done]).
Qed.

(** [token_response] fails on a document without email, with what
    [create_access_token] raises, or with what the response model raises. *)
Lemma token_response_raised (d : doc) (w w' : world S) e :
  run handle (token_response d) w = (Raised e, w') ->
  e ∈ response_errors \/
  exists sub,
    d !! "email"%string = Some sub /\
    run handle
      (create_access_token (<["sub"%string := sub]> ∅)
         (timedelta_minutes ACCESS_TOKEN_EXPIRE_MINUTES)) w = (Raised e, w').
Proof.
  unfold token_response.
  rewrite run_bind, run_getitem.
  destruct (d !! "email"%string) as [sub|] eqn:He; cbv beta iota;
    [|intros [= <- <-]; left; by_vm].
  rewrite run_bind.
  destruct (run handle (create_access_token _ _) w) as [[tok|e1] w1] eqn:Htok.
  - rewrite run_bind.
    destruct (run handle (user_response d) w1) as [[ur|e2] w2] eqn:Hur;
      [done|].
    intros [= <- <-]. left. by apply user_response_raised in Hur as [? _].
  - intros [= <- <-]. right. by exists sub.
Qed.

(** The response built for the user that [signup] has just stored. *)
Lemma token_response_new_user (u : UserSignup.t) (h : pystr) (now : Z) (n : N)
    (w : world S) :
  run handle
    (token_response (<["_id"%string := VStr (str_ObjectId n)]> (new_user u h now)))
    w =
  match run handle
          (create_access_token (token_data (UserSignup.email u))
             (timedelta_minutes ACCESS_TOKEN_EXPIRE_MINUTES)) w with
  | (Returned tok, w1) =>
      (Returned
         (TokenResponse.Make tok bearer
            (UserResponse.Make (str_ObjectId n) (UserSignup.email u)
               (UserSignup.username u) (isoformat now))), w1)
  | (Raised e, w1) => (Raised e, w1)
  end.
Proof.
  unfold token_response. rewrite run_bind, run_getitem.
  change ((<["_id"%string := VStr (str_ObjectId n)]> (new_user u h now))
            !! "email"%string) with (Some (VStr (UserSignup.email u))).
  cbv beta iota. rewrite run_bind. fold (token_data (UserSignup.email u)).
  destruct (run handle (create_access_token _ _) w) as [[tok|e1] w1]; [|done].
  reflexivity.
Qed.

(** Nothing that the response models read is the stored hash. *)
Lemma user_response_hash_free (d : doc) (v : value) :
  user_response (<["hashed_password"%string := v]> d) = user_response d.
Proof.
  unfold user_response, getitem. by rewrite !lookup_insert_ne by done.
Qed.

Lemma token_response_hash_free (d : doc) (v : value) :
  token_response (<["hashed_password"%string := v]> d) = token_response d.
Proof.
  unfold token_response. rewrite user_response_hash_free.
  unfold getitem. by rewrite !lookup_insert_ne by done.
Qed.
End Responses.

(** ** Signup: the checks of the request *)

(** C4: a signup whose password has fewer than 6 characters fails with a
    validation error carrying a readable reason (the password message, or
    the email message when the email check fails first); "abc" fails the
    password check and "abcdef" passes it; a password passes exactly when
    its length is at least 6, and a signup with "abcdef" succeeds. *)
Theorem signup_password_minimum `{Auth} `{Pylib} {S : Type}
    (handle : forall X, storeE X -> S -> outcome X * S)
    (u : UserSignup.t) (w : world S) :
  validate_password (lit "abc") = (false, Some password_too_short) /\
  validate_password (lit "abcdef") = (true, None) /\
  (validate_password (UserSignup.password u) = (true, None) <->
   (6 <= length (UserSignup.password u))%nat) /\
  ((length (UserSignup.password u) < 6)%nat ->
   exists reason,
     run handle (signup u) w = (Raised (validation_error reason), w) /\
     reason = (if validate_email (UserSignup.email u)
               then password_too_short else invalid_email_format)) /\
  returned
    (fst (run Mongo.handle
            (@signup Toy.auth Toy.pylib
               (UserSignup.Make (lit "a@x.com") (lit "alice") (lit "abcdef")))
            Toy.fresh)) = true.
Proof.
  split_and!.
  - reflexivity.
  - reflexivity.
  - split.
    + unfold validate_password.
      destruct (Z.ltb_spec (Z.of_nat (length (UserSignup.password u))) 6);
        [done | lia].
    + apply validate_password_long.
  - intros Hp. destruct (validate_email (UserSignup.email u)) eqn:He.
    + exists password_too_short. split; [|done].
      by apply signup_short_password.
    + exists invalid_email_format. split; [|done].
      by apply signup_invalid_email.
  - by_vm.
Qed.

Lemma signup_password_minimum_witness :
  exists reason,
    run Mongo.handle
      (@signup Toy.auth Toy.pylib
         (UserSignup.Make (lit "a@x.com") (lit "alice") (lit "abc")))
      Toy.fresh = (Raised (validation_error reason), Toy.fresh) /\
    reason = password_too_short.
Proof.
  apply (@signup_password_minimum Toy.auth Toy.pylib _ Mongo.handle
           (UserSignup.Make (lit "a@x.com") (lit "alice") (lit "abc"))
           Toy.fresh).
  simpl. lia.
Defined.

(** C8, as the design document words it, fails: an address of the worded
    form is refused when its local part holds an ASCII character outside
    the pattern's set, or its top-level label a digit. *)
Lemma spec_email_form_refused :
  (spec_email_form (lit "a!b@x.com") = true /\
   validate_email (lit "a!b@x.com") = false) /\
  (spec_email_form (lit "a@b.c0m") = true /\
   validate_email (lit "a@b.c0m") = false).
Proof. by_vm. Qed.

(** C8, amended: for a string that does not end in a newline, the email
    check accepts it exactly when it is a non-empty local part over
    [a-zA-Z0-9._%+-], [@], a non-empty domain over [a-zA-Z0-9.-], a dot and
    at least two ASCII letters; a signup whose email the check refuses fails
    with the validation error "Invalid email format". *)
Theorem validate_email_pattern_form `{Auth} `{Pylib} {S : Type}
    (handle : forall X, storeE X -> S -> outcome X * S)
    (u : UserSignup.t) (w : world S) :
  (last (UserSignup.email u) <> Some newline ->
   (validate_email (UserSignup.email u) = true <->
    pattern_form (UserSignup.email u))) /\
  (validate_email (UserSignup.email u) = false ->
   run handle (signup u) w =
   (Raised (validation_error invalid_email_format), w)).
Proof.
  split.
  - intros Hlast. rewrite validate_email_true. split.
    + intros (t & Ht & [Heq | Heq]); rewrite Heq in *; [done|].
      by rewrite last_snoc in Hlast.
    + intros Ht. exists (UserSignup.email u). auto.
  - apply signup_invalid_email.
Qed.

Lemma validate_email_pattern_form_witness :
  (validate_email (lit "a@x.com") = true <-> pattern_form (lit "a@x.com")) /\
  run Mongo.handle
    (@signup Toy.auth Toy.pylib
       (UserSignup.Make (lit "a@x.c") (lit "alice") (lit "secret1")))
    Toy.fresh = (Raised (validation_error invalid_email_format), Toy.fresh).
Proof.
  split.
  - apply (@validate_email_pattern_form Toy.auth Toy.pylib _ Mongo.handle
             (UserSignup.Make (lit "a@x.com") (lit "alice") (lit "secret1"))
             Toy.fresh).
    by_vm.
  - apply (@validate_email_pattern_form Toy.auth Toy.pylib _ Mongo.handle
             (UserSignup.Make (lit "a@x.c") (lit "alice") (lit "secret1"))
             Toy.fresh).
    by_vm.
Defined.

(** C10, as stated, fails: an accepted string may itself end in a newline,
    and a second newline is refused. *)
Lemma trailing_newline_not_repeated :
  ~ (forall e, validate_email e = true ->
               validate_email (e ++ [newline]) = true).
Proof.
  intros Hall. specialize (Hall (lit "a@b.com" ++ [newline]) eq_refl).
  revert Hall. by_vm.
Qed.

(** C10, amended: [validate_email] accepts some strings containing a
    newline ([$] matches just before a trailing newline): every accepted
    string that does not itself end in a newline is also accepted when
    followed by a single newline, as "a@b.com\n" is. *)
Theorem trailing_newline_accepted (e : pystr) :
  validate_email e = true ->
  last e <> Some newline ->
  validate_email (e ++ [newline]) = true /\
  validate_email (lit "a@b.com" ++ [newline]) = true.
Proof.
  intros He Hlast. split; [|reflexivity].
  apply validate_email_true in He as (t & Ht & [-> | ->]).
  - apply validate_email_true. exists t. auto.
  - by rewrite last_snoc in Hlast.
Qed.

Lemma trailing_newline_accepted_witness :
  validate_email (lit "a@b.com" ++ [newline]) = true /\
  validate_email (lit "a@b.com" ++ [newline]) = true.
Proof.
  apply (trailing_newline_accepted (lit "a@b.com")).
  - by_vm.
  - by_vm.
Defined.

(** ** Signup: uniqueness *)




Lemma find_some_matches (q : query) (ds : list doc) (d : doc) :
  d ∈ ds -> Mongo.q_matches q d = true ->
  exists d', List.find (Mongo.q_matches q) ds = Some d' /\
             Mongo.q_matches q d' = true.
Proof.
  intros Hin Hq.
  destruct (List.find (Mongo.q_matches q) ds) as [d'|] eqn:Hf.
  - exists d'. split; [done|]. by apply find_some in Hf as [_ ?].
  - apply list_elem_of_In in Hin.
    by rewrite (find_none _ _ Hf d Hin) in Hq.
Qed.

Lemma existing_filter_matches (u : UserSignup.t) (d : doc) :
  Mongo.q_matches (existing_filter u) d = true <->
  d !! "email"%string = Some (VStr (UserSignup.email u)) \/
  d !! "username"%string = Some (VStr (UserSignup.username u)).
Proof.
  unfold existing_filter. simpl.
  rewrite orb_false_r, orb_true_iff, !bool_decide_eq_true. done.
Qed.

(** C5, as stated, fails: the two checks of the request come first, so a
    signup with a registered email and a short password fails with the
    password's validation error, not with the conflict. *)
Lemma signup_registered_email_short_password :
  let u := UserSignup.Make (lit "a@x.com") (lit "bob") (lit "abc") in
  (exists d, d ∈ Mongo.docs (Mongo.users (store Toy.with_alice)) /\
             d !! "email"%string = Some (VStr (UserSignup.email u))) /\
  run Mongo.handle (@signup Toy.auth Toy.pylib u) Toy.with_alice =
    (Raised (validation_error password_too_short), Toy.with_alice) /\
  validation_error password_too_short <> conflict_error.
Proof.
  split_and!.
  - exists Toy.alice_doc. split; [|by_vm].
    rewrite with_alice_users. apply list_elem_of_here.
  - by_vm.
  - discriminate.
Qed.

(** C5, amended: a signup that passes the email and the password check and
    whose email or username equals that of a user in the store fails with
    the conflict error and leaves the store as it was; so does a signup
    with a registered email, whatever the username. *)
Theorem signup_existing_conflict `{Auth} `{Pylib}
    (u : UserSignup.t) (w : world Mongo.db) (existing : doc) :
  validate_email (UserSignup.email u) = true ->
  (6 <= length (UserSignup.password u))%nat ->
  existing ∈ Mongo.docs (Mongo.users (store w)) ->
  existing !! "email"%string = Some (VStr (UserSignup.email u)) \/
  existing !! "username"%string = Some (VStr (UserSignup.username u)) ->
  run Mongo.handle (signup u) w = (Raised conflict_error, w).
Proof.
  intros He Hp Hin Hmatch.
  rewrite (signup_valid Mongo.handle u w He Hp).
  apply existing_filter_matches in Hmatch.
  destruct (find_some_matches _ _ _ Hin Hmatch) as (d & Hfind & Hd).
  cbn [Mongo.handle Mongo.get_coll]. rewrite Hfind.
  assert (truthy (Some d) = true) as ->.
  { apply existing_filter_matches in Hd. unfold truthy.
    rewrite negb_true_iff, bool_decide_eq_false.
    intros ->. rewrite !lookup_empty in Hd. by destruct Hd. }
  by rewrite with_store_id.
Qed.

Lemma signup_existing_conflict_witness :
  run Mongo.handle (@signup Toy.auth Toy.pylib Toy.alice2) Toy.with_alice =
  (Raised conflict_error, Toy.with_alice).
Proof.
  apply (@signup_existing_conflict Toy.auth Toy.pylib Toy.alice2
           Toy.with_alice Toy.alice_doc).
  - by_vm.
  - simpl. lia.
  - rewrite with_alice_users. apply list_elem_of_here.
  - left. by_vm.
Defined.

(** ** The public user view *)

Lemma public_view_new_user `{Pylib} (u : UserSignup.t) (h : pystr) (now : Z)
    (n : N) :
  public_view (<["_id"%string := VStr (str_ObjectId n)]> (new_user u h now)) =
  Some (UserResponse.Make (str_ObjectId n) (UserSignup.email u)
          (UserSignup.username u) (isoformat now)).
Proof. reflexivity. Qed.

(** C6: whatever the store and [auth] do, a user object returned by signup,
    login or me is the public view of a user document: of the stored one
    with its new identifier for signup, of the authenticated one for login,
    of the resolved one for me; the access token beside it is what
    [create_access_token] makes of the email alone.  The view is the same
    for every value of the document's [hashed_password], and its JSON
    object has the keys [id], [email], [username] and [created_at] and no
    other.

    The responses that are no user object hold no hash either.  What the
    endpoints raise themselves is constant: for signup the three 400
    responses "Invalid email format", "Password must be at least 6
    characters long" and "Email or username already registered", for login
    the 401 response "Incorrect email or password"; any other failure of
    signup is an exception of the store ([find_one], [insert_one]) or of
    [create_access_token] on the email; any other failure of login is an
    exception of [authenticate_user], of [create_access_token] on the
    document's email, or of the response model; me fails with an exception
    of the response model only.  An exception of the response model names
    a key or a field, and it and every other exception that is no
    [HTTPException] reaches the client as the bare 500 "Internal Server
    Error" (a cancelled request gets no response).  Finally, what login and
    me make of a document, and what signup makes of the stored one, is the
    same program for every value of its [hashed_password]: outcome, error
    or not, and response do not depend on the hash. *)
Theorem responses_hold_public_view `{Auth} `{Pylib} {S : Type}
    (handle : forall X, storeE X -> S -> outcome X * S) :
  (forall u w r w',
     run handle (signup u) w = (Returned r, w') ->
     TokenResponse.token_type r = bearer /\
     (exists n,
        TokenResponse.user r =
        UserResponse.Make (str_ObjectId n) (UserSignup.email u)
          (UserSignup.username u) (isoformat (clock w))) /\
     exists w1,
       run handle
         (create_access_token (token_data (UserSignup.email u))
            (timedelta_minutes ACCESS_TOKEN_EXPIRE_MINUTES)) w1 =
       (Returned (TokenResponse.access_token r), w')) /\
  (forall l w r w',
     run handle (login l) w = (Returned r, w') ->
     TokenResponse.token_type r = bearer /\
     exists d w1,
       run handle (authenticate_user (UserLogin.email l) (UserLogin.password l))
         w = (Returned (Some d), w1) /\
       public_view d = Some (TokenResponse.user r) /\
       run handle
         (create_access_token
            (token_data (UserResponse.email (TokenResponse.user r)))
            (timedelta_minutes ACCESS_TOKEN_EXPIRE_MINUTES)) w1 =
       (Returned (TokenResponse.access_token r), w')) /\
  (forall current_user w r w',
     run handle (get_current_user_info current_user) w = (Returned r, w') ->
     public_view current_user = Some r) /\
  (forall d v, public_view (<["hashed_password"%string := v]> d) = public_view d) /\
  (forall r : UserResponse.t,
     dom (UserResponse.dump r) =
       ({["id"; "email"; "username"; "created_at"]} : gset string)%string /\
     UserResponse.dump r !! "hashed_password"%string = None) /\
  (forall u w e w',
     run handle (signup u) w = (Raised e, w') ->
     e = HTTPException 400 (Some (lit "Invalid email format")) [] \/
     e = HTTPException 400
           (Some (lit "Password must be at least 6 characters long")) [] \/
     e = HTTPException 400
           (Some (lit "Email or username already registered")) [] \/
     (exists s',
        handle _ (FindOne Users (existing_filter u)) (store w) =
          (Raised e, s')) \/
     (exists existing_user s1 s',
        handle _ (FindOne Users (existing_filter u)) (store w) =
          (Returned existing_user, s1) /\
        truthy existing_user = false /\
        handle _ (InsertOne Users
                    (new_user u (get_password_hash (UserSignup.password u))
                       (clock w))) s1 = (Raised e, s')) \/
     (exists w1,
        run handle
          (create_access_token (token_data (UserSignup.email u))
             (timedelta_minutes ACCESS_TOKEN_EXPIRE_MINUTES)) w1 =
        (Raised e, w'))) /\
  (forall l w e w',
     run handle (login l) w = (Raised e, w') ->
     e = HTTPException 401 (Some (lit "Incorrect email or password"))
           [(lit "WWW-Authenticate", lit "Bearer")] \/
     run handle (authenticate_user (UserLogin.email l) (UserLogin.password l))
       w = (Raised e, w') \/
     exists d w1,
       run handle (authenticate_user (UserLogin.email l) (UserLogin.password l))
         w = (Returned (Some d), w1) /\
       (e ∈ response_errors \/
        exists sub,
          d !! "email"%string = Some sub /\
          run handle
            (create_access_token (<["sub"%string := sub]> ∅)
               (timedelta_minutes ACCESS_TOKEN_EXPIRE_MINUTES)) w1 =
          (Raised e, w'))) /\
  (forall current_user w e w',
     run handle (get_current_user_info current_user) w = (Raised e, w') ->
     e ∈ response_errors /\ w' = w) /\
  (forall (A : Type) (to_body : A -> body) (e : exn),
     (forall c d h,
        http_response to_body (Raised (HTTPException c d h)) =
        Some (Response c h (JDetail d))) /\
     (e ∈ response_errors \/
      is_exception e = true /\ (forall c d h, e <> HTTPException c d h) ->
      http_response to_body (Raised e) =
      Some (Response 500 [] (Text (lit "Internal Server Error")))) /\
     http_response to_body (Raised CancelledError) = None) /\
  (forall d v,
     token_response (<["hashed_password"%string := v]> d) = token_response d /\
     get_current_user_info (<["hashed_password"%string := v]> d) =
       get_current_user_info d) /\
  (forall u h h' now n,
     token_response
       (<["_id"%string := VStr (str_ObjectId n)]> (new_user u h now)) =
     token_response
       (<["_id"%string := VStr (str_ObjectId n)]> (new_user u h' now))).
Proof.
  split_and!.
  - intros u w r w' Hrun.
    destruct (validate_email (UserSignup.email u)) eqn:He;
      [|by rewrite signup_invalid_email in Hrun].
    destruct (Nat.lt_ge_cases (length (UserSignup.password u)) 6) as [Hp|Hp];
      [by rewrite signup_short_password in Hrun|].
    rewrite (signup_valid handle u w He Hp) in Hrun.
    destruct (handle _ (FindOne Users (existing_filter u)) (store w))
      as [[ex|?] s1]; [|done].
    destruct (truthy ex); [done|]. cbv zeta in Hrun.
    destruct (handle _ (InsertOne Users _) s1) as [[n|?] s2]; [|done].
    apply token_response_returned in Hrun as (Hview & Hty & Htok).
    rewrite public_view_new_user in Hview. injection Hview as Hview.
    rewrite <- Hview in Htok. split_and!; [done | by exists n | by eexists].
  - intros l w r w'. unfold login. rewrite run_bind.
    destruct (run handle (authenticate_user _ _) w) as [[user|?] w1] eqn:Hau;
      [|done].
    destruct user as [d|]; [|done]. simpl.
    destruct (bool_decide (d = ∅)); [done|]. simpl.
    intros Hrun. apply token_response_returned in Hrun as (Hview & Hty & Htok).
    split; [done|]. by exists d, w1.
  - intros d w r w' Hrun.
    by apply user_response_returned in Hrun as [Hview _].
  - intros d v. unfold public_view.
    rewrite !lookup_insert_ne by done. done.
  - intros r. split.
    + unfold UserResponse.dump. rewrite !dom_insert_L, dom_empty_L.
      set_solver.
    + reflexivity.
  - intros u w e w' Hrun.
    destruct (validate_email (UserSignup.email u)) eqn:He.
    2: { rewrite signup_invalid_email in Hrun by done.
         injection Hrun as <- <-. by left. }
    destruct (Nat.lt_ge_cases (length (UserSignup.password u)) 6) as [Hp|Hp].
    { rewrite signup_short_password in Hrun by done.
      injection Hrun as <- <-. right. by left. }
    rewrite (signup_valid handle u w He Hp) in Hrun.
    destruct (handle _ (FindOne Users (existing_filter u)) (store w))
      as [[ex|e0] s1] eqn:Hfind.
    2: { injection Hrun as <- <-. do 3 right. left. by exists s1. }
    destruct (truthy ex) eqn:Hex.
    { injection Hrun as <- <-. do 2 right. by left. }
    cbv zeta in Hrun.
    destruct (handle _ (InsertOne Users _) s1) as [[n|e0] s2] eqn:Hins.
    2: { injection Hrun as <- <-. do 4 right. left. by exists ex, s1, s2. }
    rewrite token_response_new_user in Hrun.
    destruct (run handle (create_access_token _ _) (with_store w s2))
      as [[tok|e1] w1] eqn:Htok; [done|].
    injection Hrun as <- <-. do 5 right. by eexists.
  - intros l w e w'. unfold login. rewrite run_bind.
    destruct (run handle (authenticate_user _ _) w) as [[user|e0] w1] eqn:Hau.
    2: { intros [= <- <-]. right. by left. }
    destruct user as [d|]; [|intros [= <- <-]; by left]. simpl.
    destruct (bool_decide (d = ∅)); [intros [= <- <-]; by left|]. simpl.
    intros Hrun. do 2 right. exists d, w1. split; [done|].
    by apply token_response_raised in Hrun.
  - intros d w e w' Hrun. by apply user_response_raised in Hrun.
  - intros A to_body e. split_and!; [done | | done].
    intros [Hin | [Hex Hne]].
    + unfold response_errors in Hin.
      repeat (apply elem_of_cons in Hin as [-> | Hin]; [done|]).
      by apply elem_of_nil in Hin.
    + destruct e as [c d h| | | | | |]; try done. by destruct (Hne c d h).
  - intros d v. split; [apply token_response_hash_free|].
    apply user_response_hash_free.
  - intros u h h' now n. reflexivity.
Qed.

Lemma responses_hold_public_view_witness :
  TokenResponse.token_type Toy.alice_response = bearer /\
  exists n,
    TokenResponse.user Toy.alice_response =
    UserResponse.Make (str_ObjectId n) (UserSignup.email Toy.alice)
      (UserSignup.username Toy.alice) (@isoformat Toy.pylib (clock Toy.fresh)).
Proof.
  destruct (proj1 (@responses_hold_public_view Toy.auth Toy.pylib _
                     Mongo.handle)
              Toy.alice Toy.fresh Toy.alice_response Toy.with_alice)
    as (Hty & Hview & _).
  - by_vm.
  - split; [exact Hty | exact Hview].
Defined.

(** ** Start-up *)

Section TryExcept.
Context {S : Type} (handle : forall X, storeE X -> S -> outcome X * S).

(** What the suite raises, the handler receives in the world the suite
    left, when it is an [Exception]; anything else leaves the statement. *)
Lemma run_try_except_eq {A} (p : prog A) (h : exn -> prog A) (w : world S) :
  run handle (try_except p h) w =
  match run handle p w with
  | (Returned a, w') => (Returned a, w')
  | (Raised e, w') =>
      if is_exception e then run handle (h e) w' else (Raised e, w')
  end.
Proof.
  revert w. induction p as [a|e|X op k IH|k IH|l k IH]; intros w; simpl;
    try done.
  - by destruct (is_exception e).
  - destruct (handle X op (store w)) as [r s]. apply IH.
Qed.

Lemma run_init_db (w : world S) :
  run handle init_db w =
  match run handle init_db_body w with
  | (Returned a, w') => (Returned a, w')
  | (Raised e, w') =>
      if is_exception e
      then (Returned tt,
            World (store w') (clock w') (stdout w' ++ [init_error e]))
      else (Raised e, w')
  end.
Proof.
  unfold init_db. rewrite run_try_except_eq.
  destruct (run handle init_db_body w) as [[a|e] w1]; [done|].
  by rewrite run_print.
Qed.




End TryExcept.




(** ** Login *)

Lemma find_none_all {A} (f : A -> bool) (l : list A) :
  (forall x, x ∈ l -> f x = false) -> List.find f l = None.
Proof.
  intros Hall. destruct (List.find f l) as [x|] eqn:Hf; [|done].
  apply find_some in Hf as [Hin Hx].
  apply list_elem_of_In in Hin. by rewrite (Hall x Hin) in Hx.
Qed.

Section Login.
Context `{Hasher} `{TokenService.Codec} `{Pylib}.
Context (SECRET_KEY : pystr) (EXPIRE_MINUTES : Z).

Lemma authenticate_user_absent (w : world Mongo.db) (email password : pystr) :
  (forall d, d ∈ Mongo.docs (Mongo.users (store w)) ->
             d !! "email"%string <> Some (VStr email)) ->
  run Mongo.handle (AuthPy.authenticate_user email password) w =
  (Returned None, w).
Proof.
  intros Hno. unfold AuthPy.authenticate_user.
  rewrite run_bind, run_await. cbn [Mongo.handle Mongo.get_coll fst snd].
  rewrite with_store_id, find_none_all; [done|].
  intros d Hd. simpl. apply bool_decide_eq_false. by apply Hno.
Qed.

Lemma authenticate_user_mismatch (w : world Mongo.db) (email password : pystr) :
  (exists d, d ∈ Mongo.docs (Mongo.users (store w)) /\
             d !! "email"%string = Some (VStr email)) ->
  (forall d, d ∈ Mongo.docs (Mongo.users (store w)) ->
             d !! "email"%string = Some (VStr email) ->
             exists h, d !! "hashed_password"%string = Some (VStr h) /\
                       verify_password password h = false) ->
  run Mongo.handle (AuthPy.authenticate_user email password) w =
  (Returned None, w).
Proof.
  intros (d0 & Hin0 & He0) Hall. unfold AuthPy.authenticate_user.
  rewrite run_bind, run_await. cbn [Mongo.handle Mongo.get_coll fst snd].
  rewrite with_store_id.
  destruct (find_some_matches (QEq "email" (VStr email)) _ d0 Hin0)
    as (d & Hfind & Hd); [by apply bool_decide_eq_true|].
  rewrite Hfind. cbv beta iota.
  apply find_some in Hfind as [Hin _]. apply list_elem_of_In in Hin.
  apply bool_decide_eq_true in Hd.
  destruct (Hall d Hin Hd) as (h & Hh & Hv).
  rewrite run_bind, run_getitem, Hh. cbv beta iota. by rewrite Hv.
Qed.
End Login.

(** C3: with the lookup and the password check of the design document, a
    login with an email that no stored user has and a login with a stored
    user's email and a password that does not match raise the same
    exception, leave the same world and reach the client as the same
    response: status 401, the header [WWW-Authenticate: Bearer] and the
    detail "Incorrect email or password". *)
Theorem login_failures_indistinguishable `{Hasher} `{TokenService.Codec}
    `{Pylib} (SECRET_KEY : pystr) (EXPIRE_MINUTES : Z) (w : world Mongo.db)
    (e1 p1 e2 p2 : pystr) :
  (forall d, d ∈ Mongo.docs (Mongo.users (store w)) ->
             d !! "email"%string <> Some (VStr e1)) ->
  (exists d, d ∈ Mongo.docs (Mongo.users (store w)) /\
             d !! "email"%string = Some (VStr e2)) ->
  (forall d, d ∈ Mongo.docs (Mongo.users (store w)) ->
             d !! "email"%string = Some (VStr e2) ->
             exists h, d !! "hashed_password"%string = Some (VStr h) /\
                       verify_password p2 h = false) ->
  let absent :=
    run Mongo.handle
      (@login (AuthPy.auth SECRET_KEY EXPIRE_MINUTES) _ (UserLogin.Make e1 p1))
      w in
  let mismatch :=
    run Mongo.handle
      (@login (AuthPy.auth SECRET_KEY EXPIRE_MINUTES) _ (UserLogin.Make e2 p2))
      w in
  absent = (Raised invalid_credentials, w) /\
  mismatch = (Raised invalid_credentials, w) /\
  http_response JToken (fst absent) = http_response JToken (fst mismatch) /\
  http_response JToken (fst mismatch) =
    Some (Response 401 [(lit "WWW-Authenticate", lit "Bearer")]
            (JDetail (Some incorrect_email_or_password))).
Proof.
  intros Hno Hsome Hwrong absent mismatch.
  assert (absent = (Raised invalid_credentials, w)) as Ha.
  { unfold absent, login. rewrite run_bind. simpl authenticate_user.
    cbn [UserLogin.email UserLogin.password].
    by rewrite authenticate_user_absent. }
  assert (mismatch = (Raised invalid_credentials, w)) as Hm.
  { unfold mismatch, login. rewrite run_bind. simpl authenticate_user.
    cbn [UserLogin.email UserLogin.password].
    by rewrite authenticate_user_mismatch. }
  rewrite Ha, Hm. done.
Qed.

Lemma login_failures_indistinguishable_witness :
  run Mongo.handle
    (@login Toy.auth Toy.pylib (UserLogin.Make (lit "b@x.com") (lit "secret1")))
    Toy.with_alice = (Raised invalid_credentials, Toy.with_alice) /\
  run Mongo.handle
    (@login Toy.auth Toy.pylib (UserLogin.Make (lit "a@x.com") (lit "wrong")))
    Toy.with_alice = (Raised invalid_credentials, Toy.with_alice).
Proof.
  pose proof with_alice_users as Hdocs.
  destruct (@login_failures_indistinguishable Toy.hasher Toy.codec Toy.pylib
              Toy.secret 30 Toy.with_alice
              (lit "b@x.com") (lit "secret1") (lit "a@x.com") (lit "wrong"))
    as (Ha & Hm & _).
  - rewrite Hdocs. intros d Hd. apply list_elem_of_singleton in Hd as ->.
    by_vm.
  - rewrite Hdocs. exists Toy.alice_doc. split; [apply list_elem_of_here|].
    by_vm.
  - rewrite Hdocs. intros d Hd _. apply list_elem_of_singleton in Hd as ->.
    exists (chr "#" :: lit "secret1"). split; by_vm.
  - split; [exact Ha | exact Hm].
Defined.

(** ** The Token Service *)

Section Tokens.
Context `{TokenService.Codec} (SECRET_KEY : pystr).
Import TokenService.

Lemma verify_cases (now : Z) (t : pystr) :
  match decode t with
  | None => verify SECRET_KEY now t = inl Malformed
  | Some (c, sg) =>
      if bool_decide (sg = sign SECRET_KEY c) then
        if bool_decide (now < expiry c) then verify SECRET_KEY now t = inr c
        else verify SECRET_KEY now t = inl Expired
      else verify SECRET_KEY now t = inl BadSignature
  end.
Proof.
  unfold verify. destruct (decode t) as [[c sg]|]; [|done].
  destruct (bool_decide (sg = sign SECRET_KEY c)); simpl; [|done].
  case_bool_decide as Hlt.
  - apply Z.ltb_lt in Hlt. by rewrite Hlt.
  - apply Z.ltb_nlt in Hlt. by rewrite Hlt.
Qed.
End Tokens.

(** C2 (auth.py modelled from the design document): [verify] succeeds if
    and only if the token's signature verifies against the secret and its
    expiry is in the future; a token that cannot be decoded fails with
    [Malformed], a decoded one whose signature does not match with
    [BadSignature], one whose signature matches and whose expiry is before
    now with [Expired]; on success the claims returned are the embedded
    ones. *)
Theorem verify_valid_iff `{TokenService.Codec} (SECRET_KEY : pystr)
    (now : Z) (t : pystr) :
  ((exists c, TokenService.verify SECRET_KEY now t = inr c) <->
   TokenService.signature_verifies SECRET_KEY t /\
   TokenService.expiry_in_future now t) /\
  (TokenService.decode t = None ->
   TokenService.verify SECRET_KEY now t = inl TokenService.Malformed) /\
  (forall c sg,
     TokenService.decode t = Some (c, sg) ->
     sg <> TokenService.sign SECRET_KEY c ->
     TokenService.verify SECRET_KEY now t = inl TokenService.BadSignature) /\
  (forall c sg,
     TokenService.decode t = Some (c, sg) ->
     sg = TokenService.sign SECRET_KEY c ->
     TokenService.expiry c < now ->
     TokenService.verify SECRET_KEY now t = inl TokenService.Expired) /\
  (forall c,
     TokenService.verify SECRET_KEY now t = inr c ->
     exists sg, TokenService.decode t = Some (c, sg)).
Proof.
  pose proof (verify_cases SECRET_KEY now t) as Hv.
  unfold TokenService.signature_verifies, TokenService.expiry_in_future.
  split_and!.
  - split.
    + intros [c Hc].
      destruct (TokenService.decode t) as [[c' sg]|]; [|congruence].
      repeat case_bool_decide; try congruence.
      split; exists c', sg; done.
    + intros [(c & sg & Hd & Hsg) (c' & sg' & Hd' & Hlt)].
      rewrite Hd in Hd', Hv. injection Hd' as <- <-.
      rewrite !bool_decide_true in Hv by done. by exists c.
  - intros Hd. by rewrite Hd in Hv.
  - intros c sg Hd Hne. by rewrite Hd, bool_decide_false in Hv.
  - intros c sg Hd Hsg Hlt.
    rewrite Hd, bool_decide_true, bool_decide_false in Hv by (done || lia).
    done.
  - intros c Hc.
    destruct (TokenService.decode t) as [[c' sg]|]; [|congruence].
    repeat case_bool_decide; try congruence.
    exists sg. congruence.
Qed.

Lemma verify_valid_iff_witness :
  @TokenService.verify Toy.codec Toy.secret 1001 (lit "nonsense") =
    inl TokenService.Malformed /\
  @TokenService.verify Toy.codec Toy.secret 1001 [0; 2000; 1; 97; 9]%N =
    inl TokenService.BadSignature.
Proof.
  split.
  - apply (proj1 (proj2
             (@verify_valid_iff Toy.codec Toy.secret 1001 (lit "nonsense")))).
    by_vm.
  - apply (proj1 (proj2 (proj2
             (@verify_valid_iff Toy.codec Toy.secret 1001
                [0; 2000; 1; 97; 9]%N)))
             (TokenService.Claims [97%N] 2000) [9%N]).
    + by_vm.
    + by_vm.
Defined.

(** C7 (auth.py modelled from the design document): a token issued for a
    subject, verified before its expiry, yields claims with that subject
    (and the expiry now + ttl), provided the codec reads back the token it
    wrote. *)
Theorem verify_issue_roundtrip `{TokenService.Codec} (SECRET_KEY : pystr)
    (s : pystr) (ttl issued_at now : Z) :
  (let c := TokenService.Claims s (issued_at + ttl) in
   TokenService.decode
     (TokenService.encode c (TokenService.sign SECRET_KEY c)) =
   Some (c, TokenService.sign SECRET_KEY c)) ->
  now < issued_at + ttl ->
  exists c,
    TokenService.verify SECRET_KEY now
      (TokenService.issue SECRET_KEY issued_at s ttl) = inr c /\
    TokenService.subject c = s /\
    TokenService.expiry c = issued_at + ttl.
Proof.
  intros Hcodec Hnow. exists (TokenService.Claims s (issued_at + ttl)).
  split; [|done].
  unfold TokenService.verify, TokenService.issue. cbv zeta in Hcodec.
  rewrite Hcodec, bool_decide_true by done. simpl.
  by apply Z.ltb_lt in Hnow as ->.
Qed.

Lemma verify_issue_roundtrip_witness :
  exists c,
    @TokenService.verify Toy.codec Toy.secret 2799
      (@TokenService.issue Toy.codec Toy.secret 1000 (lit "a@x.com") 1800) =
      inr c /\
    TokenService.subject c = lit "a@x.com" /\
    TokenService.expiry c = 1000 + 1800.
Proof.
  apply (@verify_issue_roundtrip Toy.codec Toy.secret (lit "a@x.com") 1800
           1000 2799).
  - by_vm.
  - lia.
Defined.

(** * Further properties *)

(** ** The store only grows *)

Lemma get_set_coll (c c' : collection) (x : Mongo.coll) (s : Mongo.db) :
  Mongo.get_coll c' (Mongo.set_coll c x s) =
  if decide (c' = c) then x else Mongo.get_coll c' s.
Proof. by destruct c, c'. Qed.

Lemma insert_one_docs (c c' : collection) (d : doc) (s s' : Mongo.db) r :
  Mongo.insert_one c d s = (r, s') ->
  Mongo.docs (Mongo.get_coll c' s) `prefix_of` Mongo.docs (Mongo.get_coll c' s') /\
  Mongo.indexes (Mongo.get_coll c' s') = Mongo.indexes (Mongo.get_coll c' s).
Proof.
  unfold Mongo.insert_one.
  destruct (Mongo.violates _ _); intros [= <- <-].
  - by destruct c'.
  - destruct c, c'; simpl; split; try done; by apply prefix_app_r.
Qed.

Lemma insert_many_docs (c c' : collection) (ds : list doc) (s s' : Mongo.db) r :
  Mongo.insert_many c ds s = (r, s') ->
  Mongo.docs (Mongo.get_coll c' s) `prefix_of` Mongo.docs (Mongo.get_coll c' s') /\
  Mongo.indexes (Mongo.get_coll c' s') = Mongo.indexes (Mongo.get_coll c' s).
Proof.
  revert s. induction ds as [|d ds IH]; intros s; simpl.
  - by intros [= <- <-].
  - destruct (Mongo.insert_one c d s) as [[n|e] s1] eqn:H1.
    + intros H2. apply (insert_one_docs _ c') in H1 as [Hp1 Hi1].
      apply IH in H2 as [Hp2 Hi2]. split; [by etrans | congruence].
    + intros [= <- <-]. by apply (insert_one_docs _ c') in H1.
Qed.

Lemma create_index_docs (c c' : collection) (f : string) (u : bool)
    (s s' : Mongo.db) r :
  Mongo.create_index c f u s = (r, s') ->
  Mongo.docs (Mongo.get_coll c' s') = Mongo.docs (Mongo.get_coll c' s) /\
  Mongo.next_id s' = Mongo.next_id s.
Proof.
  unfold Mongo.create_index.
  destruct (list_find _ _) as [[i [f' u']]|].
  - case_bool_decide; by intros [= <- <-].
  - destruct (_ && _); intros [= <- <-]; [done|]. by destruct c, c'.
Qed.

(** No operation of the driver removes or changes a stored document. *)
Lemma handle_docs_prefix {X} (op : storeE X) (c : collection)
    (s s' : Mongo.db) r :
  Mongo.handle X op s = (r, s') ->
  Mongo.docs (Mongo.get_coll c s) `prefix_of` Mongo.docs (Mongo.get_coll c s').
Proof.
  destruct op; simpl.
  - by intros [= <- <-].
  - intros Hop. by apply (insert_one_docs _ c) in Hop as [? _].
  - intros Hop. by apply (insert_many_docs _ c) in Hop as [? _].
  - intros Hop. apply (create_index_docs _ c) in Hop as [-> _]. done.
  - by intros [= <- <-].
Qed.

Lemma run_docs_prefix {A} (p : prog A) (c : collection) (w : world Mongo.db) :
  Mongo.docs (Mongo.get_coll c (store w)) `prefix_of`
  Mongo.docs (Mongo.get_coll c (store (snd (run Mongo.handle p w)))).
Proof.
  revert w. induction p as [a|e|X op k IH|k IH|l k IH]; intros w; simpl;
    try done.
  - destruct (Mongo.handle X op (store w)) as [r s] eqn:Hop.
    etrans; [by eapply handle_docs_prefix|]. apply (IH r (with_store w s)).
  - apply (IH (World (store w) (clock w) (stdout w ++ [l]))).
Qed.

Lemma run_docs_elem {A} (p : prog A) (c : collection) (w w' : world Mongo.db)
    (o : outcome A) (d : doc) :
  run Mongo.handle p w = (o, w') ->
  d ∈ Mongo.docs (Mongo.get_coll c (store w)) ->
  d ∈ Mongo.docs (Mongo.get_coll c (store w')).
Proof.
  intros Hrun Hin. pose proof (run_docs_prefix p c w) as [k Hk].
  rewrite Hrun in Hk. simpl in Hk. rewrite Hk. apply elem_of_app. by left.
Qed.

(** ** Signup against the store *)

Section SignupStore.
Context `{Auth} `{Pylib}.

Lemma insert_one_returned (c : collection) (d : doc) (s s' : Mongo.db) (n : N) :
  Mongo.insert_one c d s = (Returned n, s') ->
  n = Mongo.next_id s /\
  Mongo.docs (Mongo.get_coll c s') =
    Mongo.docs (Mongo.get_coll c s) ++ [<["_id"%string := VObjectId n]> d] /\
  Mongo.next_id s' = (Mongo.next_id s + 1)%N.
Proof.
  unfold Mongo.insert_one. destruct (Mongo.violates _ _); [done|].
  intros [= <- <-]. by destruct c.
Qed.

(** What a signup that returned went through. *)
Lemma signup_returned (u : UserSignup.t) (w w' : world Mongo.db) r :
  run Mongo.handle (signup u) w = (Returned r, w') ->
  validate_email (UserSignup.email u) = true /\
  (6 <= length (UserSignup.password u))%nat /\
  List.find (Mongo.q_matches (existing_filter u))
    (Mongo.docs (Mongo.users (store w))) = None /\
  exists s2,
    Mongo.insert_one Users
      (new_user u (get_password_hash (UserSignup.password u)) (clock w))
      (store w) = (Returned (Mongo.next_id (store w)), s2) /\
    run Mongo.handle
      (token_response
         (<["_id"%string := VStr (str_ObjectId (Mongo.next_id (store w)))]>
            (new_user u (get_password_hash (UserSignup.password u)) (clock w))))
      (with_store w s2) = (Returned r, w').
Proof.
  intros Hrun.
  destruct (validate_email (UserSignup.email u)) eqn:He;
    [|by rewrite signup_invalid_email in Hrun].
  destruct (Nat.lt_ge_cases (length (UserSignup.password u)) 6) as [Hp|Hp];
    [by rewrite signup_short_password in Hrun|].
  rewrite (signup_valid Mongo.handle u w He Hp) in Hrun.
  cbn [Mongo.handle Mongo.get_coll] in Hrun.
  destruct (List.find _ _) as [d|] eqn:Hfind.
  - apply find_some in Hfind as [_ Hd].
    apply existing_filter_matches in Hd.
    assert (truthy (Some d) = true) as Ht.
    { unfold truthy. rewrite negb_true_iff, bool_decide_eq_false.
      intros ->. rewrite !lookup_empty in Hd. by destruct Hd. }
    by rewrite Ht in Hrun.
  - simpl truthy in Hrun. cbv iota zeta in Hrun.
    destruct (Mongo.insert_one Users _ (store w)) as [[n|e] s2] eqn:Hins;
      [|done].
    pose proof (insert_one_returned _ _ _ _ _ Hins) as (-> & _ & _).
    split_and!; [done..|]. by exists s2.
Qed.
End SignupStore.

(** X1: a signup that returns has stored one new document in the user
    collection: the email, the username, the hash of the password (not the
    password) and the creation time, under the identifier that the response
    carries; the request had passed both checks and no stored user had its
    email or username. *)
Theorem signup_stores_user `{Auth} `{Pylib} (u : UserSignup.t)
    (w w' : world Mongo.db) (r : TokenResponse.t) :
  run Mongo.handle (signup u) w = (Returned r, w') ->
  stored_user u w ∈ Mongo.docs (Mongo.users (store w')) /\
  stored_user u w !! "hashed_password"%string =
    Some (VStr (get_password_hash (UserSignup.password u))) /\
  dom (stored_user u w) =
    ({["_id"; "email"; "username"; "hashed_password"; "created_at"]}
       : gset string)%string /\
  UserResponse.id (TokenResponse.user r) =
    str_ObjectId (Mongo.next_id (store w)) /\
  validate_email (UserSignup.email u) = true /\
  (6 <= length (UserSignup.password u))%nat /\
  (forall d, d ∈ Mongo.docs (Mongo.users (store w)) ->
     d !! "email"%string <> Some (VStr (UserSignup.email u)) /\
     d !! "username"%string <> Some (VStr (UserSignup.username u))).
Proof.
  intros Hrun.
  apply signup_returned in Hrun as (He & Hp & Hfind & s2 & Hins & Htok).
  split_and!; try done.
  - apply insert_one_returned in Hins as (_ & Hdocs & _).
    eapply (run_docs_elem _ Users); [exact Htok|].
    simpl. cbn [Mongo.get_coll] in Hdocs. rewrite Hdocs.
    apply elem_of_app. right. apply list_elem_of_here.
  - apply token_response_returned in Htok as (Hview & _).
    rewrite public_view_new_user in Hview. by injection Hview as <-.
  - intros d Hd. apply list_elem_of_In in Hd.
    pose proof (find_none _ _ Hfind d Hd) as Hno.
    split; intros Heq;
      (assert (Mongo.q_matches (existing_filter u) d = true) as Hyes
         by (apply existing_filter_matches; auto)); congruence.
Qed.

Lemma signup_stores_user_witness :
  @stored_user Toy.auth Toy.alice Toy.fresh
    ∈ Mongo.docs (Mongo.users (store Toy.with_alice)).
Proof.
  apply (@signup_stores_user Toy.auth Toy.pylib Toy.alice Toy.fresh
           Toy.with_alice Toy.alice_response).
  by_vm.
Defined.

(** X2: once a signup has returned, every later signup that passes the two
    checks and reuses its email or its username fails with the conflict
    error and changes nothing, whatever ran in between. *)
Theorem signup_then_conflict `{Auth} `{Pylib} (u u2 : UserSignup.t)
    (w w' : world Mongo.db) (r : TokenResponse.t) {A : Type}
    (between : prog A) :
  run Mongo.handle (signup u) w = (Returned r, w') ->
  validate_email (UserSignup.email u2) = true ->
  (6 <= length (UserSignup.password u2))%nat ->
  UserSignup.email u2 = UserSignup.email u \/
  UserSignup.username u2 = UserSignup.username u ->
  let w2 := snd (run Mongo.handle between w') in
  run Mongo.handle (signup u2) w2 = (Raised conflict_error, w2).
Proof.
  intros Hrun He2 Hp2 Hsame w2.
  apply signup_returned in Hrun as (_ & _ & _ & s2 & Hins & Htok).
  apply insert_one_returned in Hins as (_ & Hdocs & _).
  assert (stored_user u w ∈ Mongo.docs (Mongo.users (store w2))) as Hin.
  { apply (run_docs_elem between Users w' w2 (fst (run Mongo.handle between w')));
      [by destruct (run Mongo.handle between w')|].
    eapply (run_docs_elem _ Users); [exact Htok|].
    simpl. cbn [Mongo.get_coll] in Hdocs. rewrite Hdocs.
    apply elem_of_app. right. apply list_elem_of_here. }
  assert (Mongo.q_matches (existing_filter u2) (stored_user u w) = true) as Hm.
  { apply existing_filter_matches. unfold stored_user, new_user.
    destruct Hsame as [-> | ->]; [left | right]; by simplify_map_eq. }
  rewrite (signup_valid Mongo.handle u2 w2 He2 Hp2).
  destruct (find_some_matches _ _ _ Hin Hm) as (d & Hfind & Hd).
  cbn [Mongo.handle Mongo.get_coll]. rewrite Hfind.
  assert (truthy (Some d) = true) as ->.
  { apply existing_filter_matches in Hd. unfold truthy.
    rewrite negb_true_iff, bool_decide_eq_false.
    intros ->. rewrite !lookup_empty in Hd. by destruct Hd. }
  by rewrite with_store_id.
Qed.

Lemma signup_then_conflict_witness :
  let w2 := snd (run Mongo.handle (Ret tt) Toy.with_alice) in
  run Mongo.handle (@signup Toy.auth Toy.pylib Toy.alice2) w2 =
  (Raised conflict_error, w2).
Proof.
  apply (@signup_then_conflict Toy.auth Toy.pylib Toy.alice Toy.alice2
           Toy.fresh Toy.with_alice Toy.alice_response unit (Ret tt)).
  - by_vm.
  - by_vm.
  - simpl. lia.
  - left. reflexivity.
Defined.

(** X3: [signup] inserts the user before it creates the token and does not
    undo the insert: when the token creation raises, the signup fails with
    that exception and the new user stays in the store. *)
Theorem signup_token_failure_keeps_user `{Auth} `{Pylib} (u : UserSignup.t)
    (w w' : world Mongo.db) (s2 : Mongo.db) (n : N) (e : exn) :
  validate_email (UserSignup.email u) = true ->
  (6 <= length (UserSignup.password u))%nat ->
  List.find (Mongo.q_matches (existing_filter u))
    (Mongo.docs (Mongo.users (store w))) = None ->
  Mongo.insert_one Users
    (new_user u (get_password_hash (UserSignup.password u)) (clock w))
    (store w) = (Returned n, s2) ->
  run Mongo.handle
    (create_access_token (token_data (UserSignup.email u))
       (timedelta_minutes ACCESS_TOKEN_EXPIRE_MINUTES))
    (with_store w s2) = (Raised e, w') ->
  run Mongo.handle (signup u) w = (Raised e, w') /\
  stored_user u w ∈ Mongo.docs (Mongo.users (store w')).
Proof.
  intros He Hp Hfind Hins Htok.
  rewrite (signup_valid Mongo.handle u w He Hp).
  cbn [Mongo.handle Mongo.get_coll]. rewrite Hfind. simpl truthy.
  cbv iota zeta. rewrite Hins.
  pose proof (insert_one_returned _ _ _ _ _ Hins) as (-> & Hdocs & _).
  cbn [Mongo.get_coll] in Hdocs.
  split.
  - unfold token_response. rewrite run_bind, run_getitem.
    unfold new_user at 1. simplify_map_eq. cbv beta iota.
    rewrite run_bind. unfold token_data in Htok. by rewrite Htok.
  - eapply (run_docs_elem _ Users); [exact Htok|].
    simpl. rewrite Hdocs. apply elem_of_app. right. apply list_elem_of_here.
Qed.

Lemma signup_token_failure_keeps_user_witness :
  run Mongo.handle (@signup Fixtures.no_token Toy.pylib Toy.alice) Toy.fresh =
  (Raised (AttributeError (lit "encode")),
   with_store Toy.fresh (store Toy.with_alice)) /\
  @stored_user Fixtures.no_token Toy.alice Toy.fresh
    ∈ Mongo.docs (Mongo.users (store (with_store Toy.fresh (store Toy.with_alice)))).
Proof.
  apply (@signup_token_failure_keeps_user Fixtures.no_token Toy.pylib Toy.alice
           Toy.fresh (with_store Toy.fresh (store Toy.with_alice))
           (store Toy.with_alice) 7%N).
  - by_vm.
  - simpl. lia.
  - by_vm.
  - by_vm.
  - by_vm.
Defined.

(** ** Start-up against the store *)

Lemma insert_many_returned (c : collection) (ds : list doc) (s s' : Mongo.db) :
  Mongo.insert_many c ds s = (Returned tt, s') ->
  Mongo.docs (Mongo.get_coll c s') =
    Mongo.docs (Mongo.get_coll c s) ++ with_ids (Mongo.next_id s) ds /\
  Mongo.next_id s' = (Mongo.next_id s + N.of_nat (length ds))%N.
Proof.
  revert s. induction ds as [|d ds IH]; intros s; simpl.
  - intros [= <-]. rewrite app_nil_r. split; [done | lia].
  - destruct (Mongo.insert_one c d s) as [[n|e] s1] eqn:H1; [|done].
    intros H2. apply insert_one_returned in H1 as (-> & Hd1 & Hn1).
    apply IH in H2 as [Hd2 Hn2]. rewrite Hd2, Hd1, Hn2, Hn1. split; [|lia].
    rewrite <- app_assoc. f_equal. unfold with_ids. rewrite imap_cons.
    simpl. rewrite N.add_0_r. f_equal. apply imap_ext. intros i x _. simpl.
    do 2 f_equal. lia.
Qed.

Lemma insert_one_other (c c' : collection) (d : doc) (s s' : Mongo.db) r :
  c' <> c -> Mongo.insert_one c d s = (r, s') ->
  Mongo.docs (Mongo.get_coll c' s') = Mongo.docs (Mongo.get_coll c' s).
Proof.
  intros Hc. unfold Mongo.insert_one.
  destruct (Mongo.violates _ _); intros [= <- <-]; destruct c, c'; done.
Qed.

Lemma insert_many_other (c c' : collection) (ds : list doc) (s s' : Mongo.db) r :
  c' <> c -> Mongo.insert_many c ds s = (r, s') ->
  Mongo.docs (Mongo.get_coll c' s') = Mongo.docs (Mongo.get_coll c' s).
Proof.
  intros Hc. revert s. induction ds as [|d ds IH]; intros s; simpl.
  - by intros [= <- <-].
  - destruct (Mongo.insert_one c d s) as [[n|e] s1] eqn:H1.
    + intros H2. apply IH in H2. apply (insert_one_other _ c') in H1; [|done].
      congruence.
    + intros [= <- <-]. by apply (insert_one_other _ c') in H1.
Qed.

Lemma create_index_has (c : collection) (f : string) (u : bool) (s : Mongo.db) :
  has_index c f u s -> Mongo.create_index c f u s = (Returned tt, s).
Proof.
  intros (i & f' & Hfind). unfold Mongo.create_index. rewrite Hfind.
  by rewrite bool_decide_true.
Qed.

Lemma create_index_returned (c : collection) (f : string) (u : bool)
    (s s' : Mongo.db) :
  Mongo.create_index c f u s = (Returned tt, s') -> has_index c f u s'.
Proof.
  unfold Mongo.create_index, has_index.
  destruct (list_find _ _) as [[i [f' u']]|] eqn:Hfind.
  - case_bool_decide as Hu; [|done]. intros [= <-]. subst u'. eauto.
  - destruct (_ && _); [done|]. intros [= <-].
    rewrite get_set_coll, decide_True by done. simpl.
    rewrite list_find_app_r by done. simpl.
    rewrite decide_True by done. simpl. eauto.
Qed.

Lemma create_index_keeps (c c' : collection) (f f' : string) (u u' : bool)
    (s s' : Mongo.db) r :
  has_index c f u s -> Mongo.create_index c' f' u' s = (r, s') ->
  has_index c f u s'.
Proof.
  intros (i & g & Hfind). unfold Mongo.create_index.
  destruct (list_find _ (Mongo.indexes (Mongo.get_coll c' s)))
    as [[j [g' v]]|].
  - case_bool_decide; intros [= <- <-]; by exists i, g.
  - destruct (_ && _); intros [= <- <-]; [by exists i, g|].
    exists i, g. rewrite get_set_coll. case_decide as Hc; [|done].
    subst c'. simpl. by apply list_find_app_l.
Qed.

Lemma insert_many_keeps (c c' : collection) (f : string) (u : bool)
    (ds : list doc) (s s' : Mongo.db) r :
  has_index c f u s -> Mongo.insert_many c' ds s = (r, s') ->
  has_index c f u s'.
Proof.
  intros (i & g & Hfind) Hins. exists i, g.
  apply (insert_many_docs _ c) in Hins as [_ ->]. done.
Qed.

Lemma count_all (ds : list doc) :
  length (List.filter (Mongo.q_matches QAll) ds) = length ds.
Proof. induction ds; simpl; auto. Qed.

(** What a suite of [init_db] that ran through went through. *)
Lemma init_db_body_returned (w w1 : world Mongo.db) :
  run Mongo.handle init_db_body w = (Returned tt, w1) ->
  exists s1 s2 s3 s4 s5,
    Mongo.create_index Users "email" true (store w) = (Returned tt, s1) /\
    Mongo.create_index Users "username" true s1 = (Returned tt, s2) /\
    Mongo.create_index Subjects "code" true s2 = (Returned tt, s3) /\
    Mongo.create_index Materials "subject_id" false s3 = (Returned tt, s4) /\
    Mongo.create_index Materials "uploaded_by" false s4 = (Returned tt, s5) /\
    clock w1 = clock w /\
    ((Mongo.docs (Mongo.subjects s5) <> [] /\
      store w1 = s5 /\ stdout w1 = stdout w ++ [initialized]) \/
     (Mongo.docs (Mongo.subjects s5) = [] /\
      Mongo.insert_many Subjects default_subjects s5 = (Returned tt, store w1) /\
      stdout w1 = stdout w ++ [subjects_added; initialized])).
Proof.
  unfold init_db_body.
  rewrite run_bind, run_await. cbn [Mongo.handle fst snd].
  destruct (Mongo.create_index Users "email" true (store w))
    as [[[]|?] s1] eqn:H1; [|done].
  rewrite run_bind, run_await. cbn [Mongo.handle fst snd with_store store].
  destruct (Mongo.create_index Users "username" true s1)
    as [[[]|?] s2] eqn:H2; [|done].
  rewrite run_bind, run_await. cbn [Mongo.handle fst snd with_store store].
  destruct (Mongo.create_index Subjects "code" true s2)
    as [[[]|?] s3] eqn:H3; [|done].
  rewrite run_bind, run_await. cbn [Mongo.handle fst snd with_store store].
  destruct (Mongo.create_index Materials "subject_id" false s3)
    as [[[]|?] s4] eqn:H4; [|done].
  rewrite run_bind, run_await. cbn [Mongo.handle fst snd with_store store].
  destruct (Mongo.create_index Materials "uploaded_by" false s4)
    as [[[]|?] s5] eqn:H5; [|done].
  rewrite run_bind, run_await.
  cbn [Mongo.handle fst snd with_store store Mongo.get_coll].
  rewrite count_all. intros Hrun.
  exists s1, s2, s3, s4, s5. split_and!; [done..| |].
  - destruct (Mongo.docs (Mongo.subjects s5)) as [|d ds];
      cbn [length Nat.eqb] in Hrun; rewrite run_bind in Hrun.
    + rewrite run_bind, run_await in Hrun.
      cbn [Mongo.handle fst snd with_store store] in Hrun.
      destruct (Mongo.insert_many Subjects default_subjects s5)
        as [[[]|?] s6]; [|done].
      rewrite !run_print in Hrun. by injection Hrun as <-.
    + cbn [run] in Hrun. rewrite run_print in Hrun. by injection Hrun as <-.
  - destruct (Mongo.docs (Mongo.subjects s5)) as [|d ds];
      cbn [length Nat.eqb] in Hrun; rewrite run_bind in Hrun.
    + right. rewrite run_bind, run_await in Hrun.
      cbn [Mongo.handle fst snd with_store store] in Hrun.
      destruct (Mongo.insert_many Subjects default_subjects s5)
        as [[[]|?] s6]; [|done].
      rewrite !run_print in Hrun. injection Hrun as <-. simpl.
      by rewrite <- app_assoc.
    + left. cbn [run] in Hrun. rewrite run_print in Hrun.
      by injection Hrun as <-.
Qed.

(** X4: [init_db] is idempotent: after a run whose suite went through, a
    second run changes nothing in the store (no index is added, no subject
    is seeded again) and prints only the success line. *)
Theorem init_db_idempotent (w w1 : world Mongo.db) :
  run Mongo.handle init_db_body w = (Returned tt, w1) ->
  run Mongo.handle init_db w1 =
  (Returned tt, World (store w1) (clock w1) (stdout w1 ++ [initialized])).
Proof.
  intros Hrun.
  apply init_db_body_returned in Hrun
    as (s1 & s2 & s3 & s4 & s5 & H1 & H2 & H3 & H4 & H5 & _ & Hrest).
  assert (has_index Users "email" true s5 /\
          has_index Users "username" true s5 /\
          has_index Subjects "code" true s5 /\
          has_index Materials "subject_id" false s5 /\
          has_index Materials "uploaded_by" false s5) as Hix.
  { split_and!;
      eauto 10 using create_index_returned, create_index_keeps. }
  assert ((has_index Users "email" true (store w1) /\
           has_index Users "username" true (store w1) /\
           has_index Subjects "code" true (store w1) /\
           has_index Materials "subject_id" false (store w1) /\
           has_index Materials "uploaded_by" false (store w1)) /\
          Mongo.docs (Mongo.subjects (store w1)) <> []) as [Hix1 Hne].
  { destruct Hrest as [(Hne & -> & _) | (Hempty & Hins & _)]; [done|].
    destruct Hix as (? & ? & ? & ? & ?).
    split; [split_and!; eauto using insert_many_keeps|].
    apply insert_many_returned in Hins as [Hdocs _].
    cbn [Mongo.get_coll] in Hdocs. rewrite Hdocs, Hempty. done. }
  destruct Hix1 as (I1 & I2 & I3 & I4 & I5).
  unfold init_db. rewrite run_try_except_eq. unfold init_db_body.
  rewrite run_bind, run_await. cbn [Mongo.handle fst snd].
  rewrite (create_index_has _ _ _ _ I1). cbn [fst snd]. rewrite with_store_id.
  rewrite run_bind, run_await. cbn [Mongo.handle fst snd].
  rewrite (create_index_has _ _ _ _ I2). cbn [fst snd]. rewrite with_store_id.
  rewrite run_bind, run_await. cbn [Mongo.handle fst snd].
  rewrite (create_index_has _ _ _ _ I3). cbn [fst snd]. rewrite with_store_id.
  rewrite run_bind, run_await. cbn [Mongo.handle fst snd].
  rewrite (create_index_has _ _ _ _ I4). cbn [fst snd]. rewrite with_store_id.
  rewrite run_bind, run_await. cbn [Mongo.handle fst snd].
  rewrite (create_index_has _ _ _ _ I5). cbn [fst snd]. rewrite with_store_id.
  rewrite run_bind, run_await. cbn [Mongo.handle fst snd Mongo.get_coll].
  rewrite count_all, with_store_id.
  destruct (Mongo.docs (Mongo.subjects (store w1))) as [|d ds]; [done|].
  cbn [length Nat.eqb]. rewrite run_bind. cbn [run]. by rewrite run_print.
Qed.

Lemma init_db_idempotent_witness :
  run Mongo.handle init_db Fixtures.seeded =
  (Returned tt,
   World (store Fixtures.seeded) (clock Fixtures.seeded) (stdout Fixtures.seeded ++ [initialized])).
Proof.
  apply (init_db_idempotent (World Mongo.empty 1000 []) Fixtures.seeded).
  by_vm.
Defined.

(** X5: a suite of [init_db] that runs through on a store without subjects
    leaves exactly the seven default subjects there, in the order of the
    source and under consecutive new identifiers, leaves the other
    collections' documents alone and prints the two success lines. *)
Theorem init_db_seeds_subjects (w w1 : world Mongo.db) :
  run Mongo.handle init_db_body w = (Returned tt, w1) ->
  Mongo.docs (Mongo.subjects (store w)) = [] ->
  Mongo.docs (Mongo.subjects (store w1)) =
    with_ids (Mongo.next_id (store w)) default_subjects /\
  length (Mongo.docs (Mongo.subjects (store w1))) = 7%nat /\
  Mongo.docs (Mongo.users (store w1)) = Mongo.docs (Mongo.users (store w)) /\
  Mongo.docs (Mongo.materials (store w1)) =
    Mongo.docs (Mongo.materials (store w)) /\
  stdout w1 = stdout w ++ [subjects_added; initialized].
Proof.
  intros Hrun Hempty.
  apply init_db_body_returned in Hrun
    as (s1 & s2 & s3 & s4 & s5 & H1 & H2 & H3 & H4 & H5 & _ & Hrest).
  assert (forall c, Mongo.docs (Mongo.get_coll c s5) =
                    Mongo.docs (Mongo.get_coll c (store w))) as Hdocs.
  { intros c.
    apply (create_index_docs _ c) in H1 as [E1 _], H2 as [E2 _],
      H3 as [E3 _], H4 as [E4 _], H5 as [E5 _]. congruence. }
  assert (Mongo.next_id s5 = Mongo.next_id (store w)) as Hid.
  { apply (create_index_docs _ Users) in H1 as [_ E1], H2 as [_ E2],
      H3 as [_ E3], H4 as [_ E4], H5 as [_ E5]. congruence. }
  pose proof (Hdocs Subjects) as Hs. pose proof (Hdocs Users) as Hu.
  pose proof (Hdocs Materials) as Hm. cbn [Mongo.get_coll] in Hs, Hu, Hm.
  destruct Hrest as [(Hne & _) | (_ & Hins & Hout)]; [congruence|].
  pose proof (insert_many_returned _ _ _ _ Hins) as [Hsub _].
  pose proof (insert_many_other Subjects Users _ _ _ _ ltac:(done) Hins) as Hu'.
  pose proof (insert_many_other Subjects Materials _ _ _ _ ltac:(done) Hins) as Hm'.
  cbn [Mongo.get_coll] in Hsub, Hu', Hm'.
  rewrite Hs, Hid, Hempty in Hsub. simpl app in Hsub.
  split_and!; [done | | congruence | congruence | done].
  rewrite Hsub. unfold with_ids. by rewrite length_imap.
Qed.

Lemma init_db_seeds_subjects_witness :
  Mongo.docs (Mongo.subjects (store Fixtures.seeded)) = with_ids 0 default_subjects.
Proof.
  apply (init_db_seeds_subjects (World Mongo.empty 1000 []) Fixtures.seeded).
  - by_vm.
  - reflexivity.
Defined.

Lemma init_db_body_keeps_docs (w w1 : world Mongo.db) (o : outcome unit) :
  run Mongo.handle init_db_body w = (o, w1) ->
  Mongo.docs (Mongo.subjects (store w)) <> [] ->
  forall c, Mongo.docs (Mongo.get_coll c (store w1)) =
            Mongo.docs (Mongo.get_coll c (store w)).
Proof.
  intros Hrun Hne c. revert Hrun. unfold init_db_body.
  rewrite run_bind, run_await. cbn [Mongo.handle fst snd].
  destruct (Mongo.create_index Users "email" true (store w))
    as [r1 s1] eqn:H1.
  apply (create_index_docs _ c) in H1 as Hc1. destruct Hc1 as [E1 _].
  apply (create_index_docs _ Subjects) in H1 as [F1 _].
  destruct r1 as [[]|?]; [|by intros [= <- <-]].
  rewrite run_bind, run_await. cbn [Mongo.handle fst snd with_store store].
  destruct (Mongo.create_index Users "username" true s1) as [r2 s2] eqn:H2.
  apply (create_index_docs _ c) in H2 as Hc2. destruct Hc2 as [E2 _].
  apply (create_index_docs _ Subjects) in H2 as [F2 _].
  destruct r2 as [[]|?]; [|intros [= <- <-]; simpl; congruence].
  rewrite run_bind, run_await. cbn [Mongo.handle fst snd with_store store].
  destruct (Mongo.create_index Subjects "code" true s2) as [r3 s3] eqn:H3.
  apply (create_index_docs _ c) in H3 as Hc3. destruct Hc3 as [E3 _].
  apply (create_index_docs _ Subjects) in H3 as [F3 _].
  destruct r3 as [[]|?]; [|intros [= <- <-]; simpl; congruence].
  rewrite run_bind, run_await. cbn [Mongo.handle fst snd with_store store].
  destruct (Mongo.create_index Materials "subject_id" false s3)
    as [r4 s4] eqn:H4.
  apply (create_index_docs _ c) in H4 as Hc4. destruct Hc4 as [E4 _].
  apply (create_index_docs _ Subjects) in H4 as [F4 _].
  destruct r4 as [[]|?]; [|intros [= <- <-]; simpl; congruence].
  rewrite run_bind, run_await. cbn [Mongo.handle fst snd with_store store].
  destruct (Mongo.create_index Materials "uploaded_by" false s4)
    as [r5 s5] eqn:H5.
  apply (create_index_docs _ c) in H5 as Hc5. destruct Hc5 as [E5 _].
  apply (create_index_docs _ Subjects) in H5 as [F5 _].
  destruct r5 as [[]|?]; [|intros [= <- <-]; simpl; congruence].
  rewrite run_bind, run_await.
  cbn [Mongo.handle fst snd with_store store Mongo.get_coll].
  rewrite count_all. cbn [Mongo.get_coll] in F1, F2, F3, F4, F5.
  destruct (Mongo.docs (Mongo.subjects s5)) as [|d ds] eqn:Hs5; [congruence|].
  cbn [length Nat.eqb]. rewrite run_bind. cbn [run]. rewrite run_print.
  intros [= <- <-]. simpl. congruence.
Qed.

(** X6: on a store that already holds a subject, [init_db] adds, changes
    and removes no document of any collection, whether its index creations
    succeed or fail: the default subjects are seeded only into an empty
    subject collection. *)
Theorem init_db_keeps_documents (w : world Mongo.db) (c : collection) :
  Mongo.docs (Mongo.subjects (store w)) <> [] ->
  Mongo.docs (Mongo.get_coll c (store (snd (run Mongo.handle init_db w)))) =
  Mongo.docs (Mongo.get_coll c (store w)).
Proof.
  intros Hne. rewrite run_init_db.
  destruct (run Mongo.handle init_db_body w) as [[[]|e] w1] eqn:Hrun.
  - simpl. by eapply init_db_body_keeps_docs.
  - destruct (is_exception e); simpl; by eapply init_db_body_keeps_docs.
Qed.

Lemma init_db_keeps_documents_witness :
  Mongo.docs (Mongo.get_coll Subjects
                (store (snd (run Mongo.handle init_db Fixtures.seeded)))) =
  Mongo.docs (Mongo.get_coll Subjects (store Fixtures.seeded)).
Proof.
  apply (init_db_keeps_documents Fixtures.seeded Subjects). by_vm.
Defined.

(** ** The me endpoint *)

(** X7: the me endpoint returns exactly the public view of the resolved
    document and never touches the store or the output; when one of the
    keys [_id], [email], [username], [created_at] is missing it raises
    [KeyError] for a missing key, which reaches the client as a bare 500. *)
Theorem me_view_or_key_error `{Pylib} {S : Type}
    (handle : forall X, storeE X -> S -> outcome X * S)
    (current_user : doc) (w : world S) :
  snd (run handle (get_current_user_info current_user) w) = w /\
  (forall r,
     fst (run handle (get_current_user_info current_user) w) = Returned r <->
     public_view current_user = Some r) /\
  ((exists k, k ∈ ["_id"; "email"; "username"; "created_at"]%string /\
              current_user !! k = None) ->
   exists k,
     current_user !! k = None /\
     fst (run handle (get_current_user_info current_user) w) =
       Raised (KeyError k) /\
     http_response JUser
       (fst (run handle (get_current_user_info current_user) w)) =
       Some internal_server_error).
Proof.
  unfold get_current_user_info, user_response, public_view.
  rewrite !run_bind, !run_getitem.
  destruct (current_user !! "_id"%string) as [i|] eqn:Hi; cbv beta iota.
  2: { split_and!; [done | by intros r | intros _; by exists "_id"%string]. }
  rewrite !run_bind, !run_getitem.
  destruct (current_user !! "email"%string) as [e|] eqn:He; cbv beta iota.
  2: { split_and!; [done | intros r; by destruct i
                    | intros _; by exists "email"%string]. }
  rewrite !run_bind, !run_getitem.
  destruct (current_user !! "username"%string) as [n|] eqn:Hn; cbv beta iota.
  2: { split_and!; [done | intros r; by destruct i, e
                    | intros _; by exists "username"%string]. }
  rewrite !run_bind, !run_getitem.
  destruct (current_user !! "created_at"%string) as [c|] eqn:Hc;
    cbv beta iota.
  2: { split_and!; [done | intros r; by destruct i, e, n
                    | intros _; by exists "created_at"%string]. }
  split_and!.
  - by destruct c, i, e, n.
  - intros r. destruct c, i, e, n; simpl; split; intros [= <-]; done.
  - intros (k & Hk & Hnone).
    repeat (apply elem_of_cons in Hk as [-> | Hk]; [congruence|]).
    by apply elem_of_nil in Hk.
Qed.

Lemma me_view_or_key_error_witness :
  exists k,
    (∅ : doc) !! k = None /\
    fst (run Mongo.handle (@get_current_user_info Toy.pylib ∅) Toy.fresh) =
      Raised (KeyError k) /\
    http_response JUser
      (fst (run Mongo.handle (@get_current_user_info Toy.pylib ∅) Toy.fresh)) =
      Some internal_server_error.
Proof.
  apply (@me_view_or_key_error Toy.pylib _ Mongo.handle ∅ Toy.fresh).
  exists "email"%string. split; [|reflexivity].
  apply elem_of_cons; right; apply list_elem_of_here.
Defined.

(** ** Subjects and materials *)

Section Subjects.
Context `{Bson}.

Lemma subject_filter_found (n : N) (ds : list doc) (d : doc) :
  List.find (Mongo.q_matches (QEq "_id" (VObjectId n))) ds = Some d ->
  d ∈ ds /\ d !! "_id"%string = Some (VObjectId n) /\ truthy (Some d) = true.
Proof.
  intros Hfind. apply find_some in Hfind as [Hin Hd].
  apply list_elem_of_In in Hin. simpl in Hd. apply bool_decide_eq_true in Hd.
  split_and!; [done..|]. unfold truthy.
  rewrite negb_true_iff, bool_decide_eq_false. intros ->.
  by rewrite lookup_empty in Hd.
Qed.

(** With the store at hand, [get_subject] is its three cases. *)
Lemma get_subject_run (subject_id : pystr) (w : world Mongo.db) :
  run Mongo.handle (get_subject subject_id) w =
  if ObjectId_is_valid subject_id then
    match List.find (Mongo.q_matches (QEq "_id" (VObjectId (ObjectId subject_id))))
            (Mongo.docs (Mongo.subjects (store w))) with
    | Some d => run Mongo.handle (subject_response d) w
    | None =>
        (Raised (HTTPException 404 (Some subject_not_found) []), w)
    end
  else (Raised (HTTPException 400 (Some invalid_subject_id) []), w).
Proof.
  unfold get_subject. destruct (ObjectId_is_valid subject_id); [|done].
  simpl negb. cbv iota. rewrite run_bind, run_await.
  cbn [Mongo.handle Mongo.get_coll fst snd]. rewrite with_store_id.
  destruct (List.find _ _) as [d|] eqn:Hfind; [|done].
  apply subject_filter_found in Hfind as (_ & _ & ->). done.
Qed.

Lemma subject_response_world {S : Type}
    (handle : forall X, storeE X -> S -> outcome X * S) (d : doc)
    (w : world S) :
  snd (run handle (subject_response d) w) = w.
Proof.
  unfold subject_response.
  rewrite !run_bind, !run_getitem.
  destruct (d !! "_id"%string); cbv beta iota; [|done].
  rewrite !run_bind, !run_getitem.
  destruct (d !! "name"%string) as [n|]; cbv beta iota; [|done].
  rewrite !run_bind, !run_getitem.
  destruct (d !! "code"%string) as [c|]; cbv beta iota; [|done].
  destruct n, c, (d !! "description"%string) as [[]|],
    (d !! "icon"%string) as [[]|]; done.
Qed.
End Subjects.

(** X8: [get_subject] answers an identifier that [ObjectId.is_valid]
    refuses with 400 "Invalid subject ID" without asking the store, and a
    valid identifier that no stored subject has with 404 "Subject not
    found"; in every case it leaves the store and the output as they
    were. *)
Theorem get_subject_errors `{Bson} (subject_id : pystr) (w : world Mongo.db) :
  (ObjectId_is_valid subject_id = false ->
   forall (S : Type) (handle : forall X, storeE X -> S -> outcome X * S)
          (w0 : world S),
     run handle (get_subject subject_id) w0 =
     (Raised (HTTPException 400 (Some invalid_subject_id) []), w0)) /\
  (ObjectId_is_valid subject_id = true ->
   (forall d, d ∈ Mongo.docs (Mongo.subjects (store w)) ->
              d !! "_id"%string <> Some (VObjectId (ObjectId subject_id))) ->
   run Mongo.handle (get_subject subject_id) w =
   (Raised (HTTPException 404 (Some subject_not_found) []), w)) /\
  snd (run Mongo.handle (get_subject subject_id) w) = w.
Proof.
  split_and!.
  - intros Hv S handle w0. unfold get_subject. by rewrite Hv.
  - intros Hv Hno. rewrite get_subject_run, Hv, find_none_all; [done|].
    intros d Hd. simpl. apply bool_decide_eq_false. by apply Hno.
  - rewrite get_subject_run.
    destruct (ObjectId_is_valid subject_id); [|done].
    destruct (List.find _ _); [|done]. apply subject_response_world.
Qed.

Lemma get_subject_errors_witness :
  run Mongo.handle (@get_subject Fixtures.bson (lit "xyz")) Toy.fresh =
    (Raised (HTTPException 400 (Some invalid_subject_id) []), Toy.fresh) /\
  run Mongo.handle (@get_subject Fixtures.bson (str_ObjectId 99)) Toy.fresh =
    (Raised (HTTPException 404 (Some subject_not_found) []), Toy.fresh).
Proof.
  split.
  - apply (proj1 (@get_subject_errors Fixtures.bson (lit "xyz") Toy.fresh)).
    by_vm.
  - apply (proj1 (proj2 (@get_subject_errors Fixtures.bson (str_ObjectId 99)
                           Toy.fresh))).
    + by_vm.
    + apply Forall_forall. by_vm.
Defined.

(** X9: a subject document with [_id], [name] and [code] is presented with
    [str] of its identifier; a missing or null description becomes [None]
    and a missing icon the default icon, a stored description and icon are
    handed on, but an icon stored as null is not defaulted: the response
    model refuses it. *)
Theorem subject_response_defaults `{Bson} {S : Type}
    (handle : forall X, storeE X -> S -> outcome X * S)
    (subject : doc) (w : world S) (v : value) (n c : pystr) :
  subject !! "_id"%string = Some v ->
  subject !! "name"%string = Some (VStr n) ->
  subject !! "code"%string = Some (VStr c) ->
  (subject !! "description"%string = None \/
   subject !! "description"%string = Some VNone ->
   subject !! "icon"%string = None ->
   run handle (subject_response subject) w =
   (Returned (SubjectResponse.Make (py_str v) n c None books), w)) /\
  (forall ds i,
     subject !! "description"%string = Some (VStr ds) ->
     subject !! "icon"%string = Some (VStr i) ->
     run handle (subject_response subject) w =
     (Returned (SubjectResponse.Make (py_str v) n c (Some ds) i), w)) /\
  (subject !! "description"%string = None ->
   subject !! "icon"%string = Some VNone ->
   run handle (subject_response subject) w =
   (Raised (ResponseValidationError (lit "icon")), w)).
Proof.
  intros Hid Hn Hc. unfold subject_response.
  rewrite !run_bind, !run_getitem, Hid. cbv beta iota.
  rewrite !run_bind, !run_getitem, Hn. cbv beta iota.
  rewrite !run_bind, !run_getitem, Hc. cbv beta iota.
  split_and!.
  - intros [-> | ->] ->; done.
  - intros ds i -> ->. done.
  - intros -> ->. done.
Qed.

Lemma subject_response_defaults_witness :
  run Mongo.handle (@subject_response Fixtures.bson Fixtures.iot) Toy.fresh =
  (Returned
     (SubjectResponse.Make (str_ObjectId 0) (lit "Internet of Things")
        (lit "IOT") (Some (lit "IOT")) [0x1F310%N]), Toy.fresh).
Proof.
  apply (proj1 (proj2 (@subject_response_defaults Fixtures.bson _ Mongo.handle
           Fixtures.iot Toy.fresh (VObjectId 0) (lit "Internet of Things")
           (lit "IOT") eq_refl eq_refl eq_refl))); reflexivity.
Defined.

Section Materials.
Context `{Pylib} `{Bson}.

Lemma create_material_run (m : MaterialCreate.t) (current_user : doc)
    (w : world Mongo.db) :
  run Mongo.handle (create_material m current_user) w =
  match subject_of m w with
  | None => (Raised (HTTPException 404 (Some subject_not_found) []), w)
  | Some _ =>
      match current_user !! "_id"%string with
      | None => (Raised (KeyError "_id"), w)
      | Some uploaded_by =>
          let d := new_material m uploaded_by (clock w) in
          match Mongo.insert_one Materials d (store w) with
          | (Raised e, s2) => (Raised e, with_store w s2)
          | (Returned n, s2) =>
              run Mongo.handle
                (material_response
                   (<["_id"%string := VStr (str_ObjectId n)]> d))
                (with_store w s2)
          end
      end
  end.
Proof.
  unfold create_material, subject_of. rewrite run_bind.
  destruct (ObjectId_is_valid (MaterialCreate.subject_id m)).
  - rewrite run_await. cbn [Mongo.handle Mongo.get_coll fst snd].
    rewrite with_store_id.
    destruct (List.find _ _) as [d|] eqn:Hfind; [|done].
    apply subject_filter_found in Hfind as (_ & _ & ->).
    simpl negb. cbv iota. rewrite run_bind, run_getitem.
    destruct (current_user !! "_id"%string) as [v|]; [|done].
    cbv beta iota. rewrite run_bind, run_utcnow. cbv beta iota.
    rewrite run_bind, run_await. cbn [Mongo.handle fst snd].
    by destruct (Mongo.insert_one Materials _ (store w)) as [[n|e] s2].
  - done.
Qed.

Lemma opt_str_field_of_optional {S : Type}
    (handle : forall X, storeE X -> S -> outcome X * S)
    (name : string) (o : option pystr) (w : world S) :
  run handle (opt_str_field name (Some (of_optional o))) w = (Returned o, w).
Proof. by destruct o. Qed.

Lemma material_response_new (m : MaterialCreate.t) (v : value) (now : Z)
    (n : N) (w : world Mongo.db) :
  run Mongo.handle
    (material_response
       (<["_id"%string := VStr (str_ObjectId n)]> (new_material m v now))) w =
  match v with
  | VStr uid =>
      (Returned
         (MaterialResponse.Make (str_ObjectId n) (MaterialCreate.subject_id m)
            (MaterialCreate.title m) (MaterialCreate.content m)
            (MaterialCreate.file_url m) uid (isoformat now)), w)
  | _ => (Raised (ResponseValidationError (lit "uploaded_by")), w)
  end.
Proof.
  destruct m as [sid title [c|] [f|]], v; reflexivity.
Qed.
End Materials.

Lemma subject_of_found `{Bson} (m : MaterialCreate.t) (w : world Mongo.db) :
  ObjectId_is_valid (MaterialCreate.subject_id m) = true ->
  (exists d, d ∈ Mongo.docs (Mongo.subjects (store w)) /\
             d !! "_id"%string =
               Some (VObjectId (ObjectId (MaterialCreate.subject_id m)))) ->
  is_Some (subject_of m w).
Proof.
  intros Hv (d & Hin & Hd). unfold subject_of. rewrite Hv.
  destruct (find_some_matches
              (QEq "_id" (VObjectId (ObjectId (MaterialCreate.subject_id m))))
              _ d Hin) as (d' & -> & _); [|done].
  simpl. by apply bool_decide_eq_true.
Qed.

(** X10: [create_material] answers both an identifier that
    [ObjectId.is_valid] refuses and a valid identifier that no stored
    subject has with 404 "Subject not found" (where [get_subject] tells the
    two apart), and then stores nothing: the world is as it was. *)
Theorem create_material_unknown_subject `{Pylib} `{Bson}
    (m : MaterialCreate.t) (current_user : doc) (w : world Mongo.db) :
  ObjectId_is_valid (MaterialCreate.subject_id m) = false \/
  (forall d, d ∈ Mongo.docs (Mongo.subjects (store w)) ->
             d !! "_id"%string <>
               Some (VObjectId (ObjectId (MaterialCreate.subject_id m)))) ->
  run Mongo.handle (create_material m current_user) w =
  (Raised (HTTPException 404 (Some subject_not_found) []), w).
Proof.
  intros Hcase. rewrite create_material_run.
  assert (subject_of m w = None) as ->; [|done].
  unfold subject_of. destruct Hcase as [-> | Hno]; [done|].
  destruct (ObjectId_is_valid _); [|done].
  apply find_none_all. intros d Hd. simpl. apply bool_decide_eq_false.
  by apply Hno.
Qed.

Lemma create_material_unknown_subject_witness :
  run Mongo.handle
    (@create_material Toy.pylib Fixtures.bson
       (MaterialCreate.Make (lit "xyz") (lit "Notes") None None)
       Fixtures.current_alice) Toy.with_alice =
  (Raised (HTTPException 404 (Some subject_not_found) []), Toy.with_alice).
Proof.
  apply (@create_material_unknown_subject Toy.pylib Fixtures.bson).
  left. by_vm.
Defined.

(** X11: for a stored subject and a resolved user whose [_id] is a string,
    [create_material] appends one document to the material collection (the
    request's fields, the user's identifier as [uploaded_by], the time of
    the call) and returns it: the new identifier, the request's fields as
    they came, the uploader and the creation time. *)
Theorem create_material_stores `{Pylib} `{Bson}
    (m : MaterialCreate.t) (current_user : doc) (w : world Mongo.db)
    (uid : pystr) (n : N) (s2 : Mongo.db) :
  ObjectId_is_valid (MaterialCreate.subject_id m) = true ->
  (exists d, d ∈ Mongo.docs (Mongo.subjects (store w)) /\
             d !! "_id"%string =
               Some (VObjectId (ObjectId (MaterialCreate.subject_id m)))) ->
  current_user !! "_id"%string = Some (VStr uid) ->
  Mongo.insert_one Materials (new_material m (VStr uid) (clock w)) (store w) =
    (Returned n, s2) ->
  run Mongo.handle (create_material m current_user) w =
    (Returned
       (MaterialResponse.Make (str_ObjectId n) (MaterialCreate.subject_id m)
          (MaterialCreate.title m) (MaterialCreate.content m)
          (MaterialCreate.file_url m) uid (isoformat (clock w))),
     with_store w s2) /\
  n = Mongo.next_id (store w) /\
  Mongo.docs (Mongo.materials s2) =
    Mongo.docs (Mongo.materials (store w)) ++
    [<["_id"%string := VObjectId n]> (new_material m (VStr uid) (clock w))].
Proof.
  intros Hv Hsub Hid Hins. rewrite create_material_run.
  destruct (subject_of_found m w Hv Hsub) as [d ->].
  rewrite Hid. cbv zeta. rewrite Hins, material_response_new.
  apply insert_one_returned in Hins as (-> & Hdocs & _). done.
Qed.

Lemma create_material_stores_witness :
  run Mongo.handle
    (@create_material Toy.pylib Fixtures.bson Fixtures.notes
       Fixtures.current_alice) Toy.with_alice =
  (Returned
     (MaterialResponse.Make (str_ObjectId 8) (str_ObjectId 0) (lit "Notes")
        (Some (lit "text")) None (str_ObjectId 7)
        (@isoformat Toy.pylib (clock Toy.with_alice))),
   with_store Toy.with_alice
     (snd (Mongo.insert_one Materials
             (new_material Fixtures.notes (VStr (str_ObjectId 7))
                (clock Toy.with_alice))
             (store Toy.with_alice)))).
Proof.
  apply (@create_material_stores Toy.pylib Fixtures.bson Fixtures.notes
           Fixtures.current_alice Toy.with_alice (str_ObjectId 7) 8%N).
  - by_vm.
  - exists Fixtures.iot. split; [|by_vm].
    replace (Mongo.docs (Mongo.subjects (store Toy.with_alice)))
      with (Fixtures.iot :: tail (Mongo.docs (Mongo.subjects (store Toy.with_alice))))
      by by_vm.
    apply list_elem_of_here.
  - by_vm.
  - by_vm.
Defined.

(** X12: for a stored subject, a resolved user without [_id] makes
    [create_material] raise [KeyError] before anything is stored; a user
    whose [_id] is not a string is found out only by the response model,
    after the insert: the request fails and the material is in the store. *)
Theorem create_material_user_id `{Pylib} `{Bson}
    (m : MaterialCreate.t) (current_user : doc) (w : world Mongo.db) :
  ObjectId_is_valid (MaterialCreate.subject_id m) = true ->
  (exists d, d ∈ Mongo.docs (Mongo.subjects (store w)) /\
             d !! "_id"%string =
               Some (VObjectId (ObjectId (MaterialCreate.subject_id m)))) ->
  (current_user !! "_id"%string = None ->
   run Mongo.handle (create_material m current_user) w =
   (Raised (KeyError "_id"), w)) /\
  (forall v n s2,
     current_user !! "_id"%string = Some v ->
     (forall uid, v <> VStr uid) ->
     Mongo.insert_one Materials (new_material m v (clock w)) (store w) =
       (Returned n, s2) ->
     run Mongo.handle (create_material m current_user) w =
       (Raised (ResponseValidationError (lit "uploaded_by")), with_store w s2) /\
     <["_id"%string := VObjectId n]> (new_material m v (clock w))
       ∈ Mongo.docs (Mongo.materials s2)).
Proof.
  intros Hv Hsub. destruct (subject_of_found m w Hv Hsub) as [d Hd].
  split.
  - intros Hid. by rewrite create_material_run, Hd, Hid.
  - intros v n s2 Hid Hnot Hins.
    rewrite create_material_run, Hd, Hid. cbv zeta.
    rewrite Hins, material_response_new.
    apply insert_one_returned in Hins as (-> & Hdocs & _).
    cbn [Mongo.get_coll] in Hdocs. rewrite Hdocs. split.
    + destruct v; try done. by destruct (Hnot s).
    + apply elem_of_app. right. apply list_elem_of_here.
Qed.

Lemma create_material_user_id_witness :
  run Mongo.handle
    (@create_material Toy.pylib Fixtures.bson Fixtures.notes ∅)
    Toy.with_alice = (Raised (KeyError "_id"), Toy.with_alice).
Proof.
  apply (@create_material_user_id Toy.pylib Fixtures.bson Fixtures.notes ∅
           Toy.with_alice).
  - by_vm.
  - exists Fixtures.iot. split; [|by_vm].
    replace (Mongo.docs (Mongo.subjects (store Toy.with_alice)))
      with (Fixtures.iot :: tail (Mongo.docs (Mongo.subjects (store Toy.with_alice))))
      by by_vm.
    apply list_elem_of_here.
  - reflexivity.
Defined.

(** ** The response envelope *)

(** X13: [format_response] never fails and touches nothing; the envelope
    holds [success], [message] and the time of the call as [timestamp],
    and holds [data] exactly when data is given and not empty: an empty
    dict is dropped like [None], so the two give the same envelope. *)
Theorem format_response_envelope `{Pylib} {S : Type}
    (handle : forall X, storeE X -> S -> outcome X * S)
    (success : bool) (message : pystr) (data : option doc) (w : world S) :
  exists response,
    run handle (format_response success message data) w =
      (Returned response, w) /\
    response !! "success"%string = Some (RBool success) /\
    response !! "message"%string = Some (RStr message) /\
    response !! "timestamp"%string = Some (RStr (isoformat (clock w))) /\
    response !! "data"%string =
      (if truthy data then RDict <$> data else None) /\
    dom response =
      ({["success"; "message"; "timestamp"]} ∪
       (if truthy data then {["data"]} else ∅) : gset string)%string /\
    run handle (format_response success message (Some ∅)) w =
      run handle (format_response success message None) w.
Proof.
  unfold format_response. rewrite !run_bind, !run_utcnow. cbv beta iota zeta.
  destruct data as [d|]; simpl truthy;
    [destruct (bool_decide (d = ∅)); simpl negb; cbv iota|];
    eexists; (split; [reflexivity|]); split_and!; try done;
    rewrite !dom_insert_L, dom_empty_L; set_solver.
Qed.

(** ** The email pattern, once more *)

Lemma local_set_char (c : char) :
  Re.in_set local_set c = true ->
  (c < 128)%N /\ c <> chr "@" /\ c <> newline.
Proof.
  unfold Re.in_set, local_set, newline. cbn [existsb Re.in_item].
  replace (chr "a") with 97%N by done. replace (chr "z") with 122%N by done.
  replace (chr "A") with 65%N by done. replace (chr "Z") with 90%N by done.
  replace (chr "0") with 48%N by done. replace (chr "9") with 57%N by done.
  replace (chr ".") with 46%N by done. replace (chr "_") with 95%N by done.
  replace (chr "%") with 37%N by done. replace (chr "+") with 43%N by done.
  replace (chr "-") with 45%N by done. replace (chr "@") with 64%N by done.
  rewrite !orb_true_iff, !andb_true_iff, !N.leb_le, !N.eqb_eq. lia.
Qed.

Lemma domain_set_local (c : char) :
  Re.in_set domain_set c = true -> Re.in_set local_set c = true.
Proof.
  unfold Re.in_set, domain_set, local_set. cbn [existsb Re.in_item].
  rewrite !orb_true_iff. tauto.
Qed.

Lemma alpha_set_local (c : char) :
  Re.in_set alpha_set c = true -> Re.in_set local_set c = true.
Proof.
  unfold Re.in_set, alpha_set, local_set. cbn [existsb Re.in_item].
  rewrite !orb_true_iff. tauto.
Qed.

Lemma forallb_local_chars (l : pystr) :
  forallb (Re.in_set local_set) l = true ->
  Forall (fun c : char => (c < 128)%N) l /\
  List.filter (fun c : char => (c =? chr "@")%N) l = [].
Proof.
  induction l as [|c l IH]; cbn [forallb List.filter]; [done|].
  rewrite andb_true_iff. intros [Hc Hl].
  apply local_set_char in Hc as (Hlt & Hat & _).
  destruct (IH Hl) as [Hall Hnone].
  apply N.eqb_neq in Hat. rewrite Hat. split; [by constructor | done].
Qed.

Lemma forallb_weaken {A} (f g : A -> bool) (l : list A) :
  (forall x, f x = true -> g x = true) ->
  forallb f l = true -> forallb g l = true.
Proof.
  intros Hfg. induction l as [|x l IH]; simpl; [done|].
  rewrite !andb_true_iff. intros [? ?]. auto.
Qed.

(** X14: every string that [validate_email] accepts consists of ASCII
    characters only, holds exactly one [@] and has at least 6 characters. *)
Theorem validate_email_accepted_shape (email : pystr) :
  validate_email email = true ->
  Forall (fun c : char => (c < 128)%N) email /\
  length (List.filter (fun c : char => (c =? chr "@")%N) email) = 1%nat /\
  (6 <= length email)%nat.
Proof.
  intros He. apply validate_email_true in He as (t & Ht & Hcase).
  destruct Ht as (local & domain & tld & -> & Hn1 & Hl1 & Hn2 & Hl2 & Hn3 & Hl3).
  apply forallb_local_chars in Hl1 as [A1 F1].
  apply (forallb_weaken _ _ _ domain_set_local), forallb_local_chars in Hl2
    as [A2 F2].
  apply (forallb_weaken _ _ _ alpha_set_local), forallb_local_chars in Hl3
    as [A3 F3].
  assert (Forall (fun c : char => (c < 128)%N) (address local domain tld) /\
          length (List.filter (fun c : char => (c =? chr "@")%N)
                    (address local domain tld)) = 1%nat /\
          (6 <= length (address local domain tld))%nat) as (B1 & B2 & B3).
  { unfold address. split_and!.
    - apply Forall_app. split; [done|]. constructor; [done|].
      apply Forall_app. split; [done|]. by constructor.
    - rewrite List.filter_app, F1. cbn [app List.filter].
      rewrite N.eqb_refl, List.filter_app, F2. cbn [app List.filter].
      change (chr "." =? chr "@")%N with false. cbv iota. by rewrite F3.
    - rewrite length_app. cbn [length]. rewrite length_app. cbn [length].
      destruct local; [done|]. destruct domain; [done|]. cbn [length]. lia. }
  destruct Hcase as [-> | ->]; [done|]. split_and!.
  - apply Forall_app. split; [done|]. by repeat constructor.
  - rewrite List.filter_app. cbn [List.filter].
    change (newline =? chr "@")%N with false. cbv iota.
    by rewrite app_nil_r.
  - rewrite length_app. cbn [length]. lia.
Qed.

Lemma validate_email_accepted_shape_witness :
  Forall (fun c : char => (c < 128)%N) (lit "a@x.com") /\
  length (List.filter (fun c : char => (c =? chr "@")%N) (lit "a@x.com")) = 1%nat /\
  (6 <= length (lit "a@x.com"))%nat.
Proof.
  apply (validate_email_accepted_shape (lit "a@x.com")). by_vm.
Defined.


(** ** Two signups in flight *)

Section Race.
Context `{Auth} `{Pylib}.

Lemma signup_unfold (u : UserSignup.t) :
  validate_email (UserSignup.email u) = true ->
  (6 <= length (UserSignup.password u))%nat ->
  signup u =
  (await (FindOne Users (existing_filter u)) ≫= signup_resumed u).
Proof.
  intros He Hp. unfold signup.
  by rewrite He, (validate_password_long _ Hp).
Qed.

Lemma advance_await_bind {S X A}
    (handle : forall X, storeE X -> S -> outcome X * S)
    (op : storeE X) (f : X -> prog A) (w : world S) :
  advance handle (await op ≫= f) w =
  (match fst (handle X op (store w)) with
   | Returned x => Ret x ≫= f
   | Raised e => Raise e
   end, with_store w (snd (handle X op (store w)))).
Proof.
  unfold await, mbind, prog_bind. cbn [bind advance].
  by destruct (handle X op (store w)) as [[x|e] s].
Qed.

Lemma clock_run {S A} (handle : forall X, storeE X -> S -> outcome X * S)
    (p : prog A) (w : world S) :
  clock (snd (run handle p w)) = clock w.
Proof.
  revert w. induction p as [a|e|X op k IH|k IH|l k IH]; intros w; simpl;
    try done.
  - destruct (handle X op (store w)) as [r s]. by rewrite IH.
  - by rewrite IH.
Qed.

Lemma user_response_world {S} (handle : forall X, storeE X -> S -> outcome X * S)
    (d : doc) (w : world S) :
  snd (run handle (user_response d) w) = w.
Proof.
  unfold user_response.
  rewrite !run_bind, !run_getitem.
  destruct (d !! "_id"%string) as [i|]; cbv beta iota; [|done].
  rewrite !run_bind, !run_getitem.
  destruct (d !! "email"%string) as [e|]; cbv beta iota; [|done].
  rewrite !run_bind, !run_getitem.
  destruct (d !! "username"%string) as [n|]; cbv beta iota; [|done].
  rewrite !run_bind, !run_getitem.
  destruct (d !! "created_at"%string) as [c|]; cbv beta iota; [|done].
  by destruct c, i, e, n.
Qed.

Lemma token_response_store (d : doc) (w : world Mongo.db) :
  (forall data ttl (w0 : world Mongo.db),
     store (snd (run Mongo.handle (create_access_token data ttl) w0)) =
     store w0) ->
  store (snd (run Mongo.handle (token_response d) w)) = store w.
Proof.
  intros Htok. unfold token_response. rewrite run_bind, run_getitem.
  destruct (d !! "email"%string) as [e|]; [|done]. cbv beta iota.
  rewrite run_bind.
  pose proof (Htok (<["sub"%string := e]> ∅)
                (timedelta_minutes ACCESS_TOKEN_EXPIRE_MINUTES) w) as Hs.
  destruct (run Mongo.handle (create_access_token _ _) w) as [[tok|?] w1];
    [|done].
  rewrite run_bind. pose proof (user_response_world Mongo.handle d w1) as Hw.
  destruct (run Mongo.handle (user_response d) w1) as [[r|?] w2];
    simpl in *; congruence.
Qed.

Lemma run_signup_resumed_none (u : UserSignup.t) (w : world Mongo.db) :
  run Mongo.handle (Ret None ≫= signup_resumed u) w =
  match Mongo.insert_one Users
          (new_user u (get_password_hash (UserSignup.password u)) (clock w))
          (store w) with
  | (Raised e, s) => (Raised e, with_store w s)
  | (Returned n, s) =>
      run Mongo.handle
        (token_response
           (<["_id"%string := VStr (str_ObjectId n)]>
              (new_user u (get_password_hash (UserSignup.password u)) (clock w))))
        (with_store w s)
  end.
Proof.
  unfold mbind, prog_bind. cbn [bind]. unfold signup_resumed.
  simpl truthy. cbv iota zeta.
  rewrite run_bind, run_utcnow. cbv beta iota.
  rewrite run_bind, run_await. cbn [Mongo.handle fst snd].
  by destruct (Mongo.insert_one Users _ (store w)) as [[n|e] s].
Qed.
End Race.

(** X16: the existence check does not hold across the await: when two
    signups are in flight together and each has passed its check before
    the other inserts, both users are stored, one after the other, provided
    the store's unique indexes let both inserts pass (as they do when no
    unique index exists) and the token creation leaves the store alone;
    nothing here asks the two emails to differ. *)
Theorem signup_race_stores_both `{Auth} `{Pylib} (u1 u2 : UserSignup.t)
    (w : world Mongo.db) (n1 n2 : N) (s1 s2 : Mongo.db) :
  (forall data ttl (w0 : world Mongo.db),
     store (snd (run Mongo.handle (create_access_token data ttl) w0)) =
     store w0) ->
  validate_email (UserSignup.email u1) = true ->
  (6 <= length (UserSignup.password u1))%nat ->
  validate_email (UserSignup.email u2) = true ->
  (6 <= length (UserSignup.password u2))%nat ->
  List.find (Mongo.q_matches (existing_filter u1))
    (Mongo.docs (Mongo.users (store w))) = None ->
  List.find (Mongo.q_matches (existing_filter u2))
    (Mongo.docs (Mongo.users (store w))) = None ->
  Mongo.insert_one Users
    (new_user u1 (get_password_hash (UserSignup.password u1)) (clock w))
    (store w) = (Returned n1, s1) ->
  Mongo.insert_one Users
    (new_user u2 (get_password_hash (UserSignup.password u2)) (clock w))
    s1 = (Returned n2, s2) ->
  let result :=
    concurrently Mongo.handle [true; false] (signup u1) (signup u2) w in
  store (snd result) = s2 /\
  Mongo.docs (Mongo.users s2) =
    Mongo.docs (Mongo.users (store w)) ++
    [<["_id"%string := VObjectId n1]>
       (new_user u1 (get_password_hash (UserSignup.password u1)) (clock w));
     <["_id"%string := VObjectId n2]>
       (new_user u2 (get_password_hash (UserSignup.password u2)) (clock w))].
Proof.
  intros Htok He1 Hp1 He2 Hp2 Hf1 Hf2 Hi1 Hi2 result. split.
  - unfold result, concurrently. cbn [interleave].
    rewrite (signup_unfold u1 He1 Hp1), (signup_unfold u2 He2 Hp2).
    rewrite advance_await_bind.
    cbn [Mongo.handle Mongo.get_coll fst snd]. rewrite Hf1, with_store_id.
    rewrite advance_await_bind.
    cbn [Mongo.handle Mongo.get_coll fst snd]. rewrite Hf2, with_store_id.
    rewrite run_signup_resumed_none.
    rewrite Hi1.
    pose proof (token_response_store
                  (<["_id"%string := VStr (str_ObjectId n1)]>
                     (new_user u1 (get_password_hash (UserSignup.password u1))
                        (clock w)))
                  (with_store w s1) Htok) as Hs1.
    pose proof (clock_run Mongo.handle
                  (token_response
                     (<["_id"%string := VStr (str_ObjectId n1)]>
                        (new_user u1 (get_password_hash (UserSignup.password u1))
                           (clock w))))
                  (with_store w s1)) as Hc1.
    destruct (run Mongo.handle (token_response _) (with_store w s1))
      as [r1 w1]. simpl in Hs1, Hc1.
    rewrite run_signup_resumed_none, Hs1, Hc1, Hi2.
    pose proof (token_response_store
                  (<["_id"%string := VStr (str_ObjectId n2)]>
                     (new_user u2 (get_password_hash (UserSignup.password u2))
                        (clock w)))
                  (with_store w1 s2) Htok) as Hs2.
    destruct (run Mongo.handle (token_response _) (with_store w1 s2))
      as [r2 w2]. done.
  - apply insert_one_returned in Hi1 as (_ & Hd1 & _).
    apply insert_one_returned in Hi2 as (_ & Hd2 & _).
    cbn [Mongo.get_coll] in Hd1, Hd2. rewrite Hd2, Hd1, <- app_assoc. done.
Qed.

Lemma signup_race_stores_both_witness :
  let result :=
    concurrently Mongo.handle [true; false]
      (@signup Toy.auth Toy.pylib Toy.alice)
      (@signup Toy.auth Toy.pylib Toy.alice2) (World Mongo.empty 1000 []) in
  length (Mongo.docs (Mongo.users (store (snd result)))) = 2%nat.
Proof.
  intros result.
  destruct (@signup_race_stores_both Toy.auth Toy.pylib Toy.alice Toy.alice2
              (World Mongo.empty 1000 []) 0%N 1%N
              (snd (Mongo.insert_one Users
                      (new_user Toy.alice
                         (@get_password_hash Toy.auth
                            (UserSignup.password Toy.alice)) 1000)
                      Mongo.empty))
              (snd (Mongo.insert_one Users
                      (new_user Toy.alice2
                         (@get_password_hash Toy.auth
                            (UserSignup.password Toy.alice2)) 1000)
                      (snd (Mongo.insert_one Users
                              (new_user Toy.alice
                                 (@get_password_hash Toy.auth
                                    (UserSignup.password Toy.alice)) 1000)
                              Mongo.empty)))))
    as [Hstore Hdocs].
  - intros data ttl w0. unfold create_access_token, Toy.auth, AuthPy.auth,
      AuthPy.create_access_token.
    rewrite run_bind, run_getitem. destruct (data !! "sub"%string) as [[]|];
      done.
  - by_vm.
  - simpl. lia.
  - by_vm.
  - simpl. lia.
  - by_vm.
  - by_vm.
  - by_vm.
  - by_vm.
  - unfold result. rewrite Hstore, Hdocs. reflexivity.
Defined.
